(** * OpenIOC importer hooks (mantis_openioc_importer/importer.py)

    A shallow embedding of the hook functions of [OpenIOC_Import] and of
    its [xml_import] driver, together with the properties stated for them.

    Python values are modelled by small inductive types, Python exceptions
    by an explicit [result] type, plain [dict]s by [gmap], and the ordered
    [DingoObjDict] by association lists. *)

From Stdlib Require Import ZArith String Ascii List Bool Lia.
From stdpp Require Import base option list strings gmap.

Local Open Scope Z_scope.
Local Open Scope string_scope.

(** ** Exceptions *)

Inductive exn : Type :=
| KeyError (k : string)
| TypeError
| ValueError
| AttributeError
| IndexError
| DoesNotExist.

Inductive result (A : Type) : Type :=
| Ok (a : A)
| Raise (e : exn).
Arguments Ok {A} a.
Arguments Raise {A} e.

Definition bind {A B : Type} (m : result A) (k : A -> result B) : result B :=
  match m with
  | Ok a => k a
  | Raise e => Raise e
  end.

Notation "'let?' x ':=' m 'in' k" := (bind m (fun x => k))
  (at level 10, x name, m at level 100, k at level 200).

(** Python's [LookupError] family: [KeyError] and [IndexError]. *)
Definition is_lookup_error (e : exn) : bool :=
  match e with
  | KeyError _ | IndexError => true
  | _ => false
  end.

Definition raises {A : Type} (m : result A) : Prop := exists e, m = Raise e.

(** ** DingoObjDict

    The dictionary representation the generic importer builds for an XML
    element: attribute and text values are strings, a child element is a
    nested dictionary, repeated children form a list.  [DingoObjDict] keeps
    insertion order, hence an association list with unique keys. *)

#[warnings="-register-all"]
Inductive value : Type :=
| VStr (s : string)
| VList (l : list value)
| VDict (d : list (string * value)).

Abbreviation DingoObjDict := (list (string * value)).

Fixpoint dict_get (d : DingoObjDict) (k : string) : option value :=
  match d with
  | [] => None
  | (k', v) :: d' => if String.eqb k' k then Some v else dict_get d' k
  end.

(** [d[k] = v]: an existing key keeps its position, a new key is appended. *)
Fixpoint dict_set (d : DingoObjDict) (k : string) (v : value) : DingoObjDict :=
  match d with
  | [] => [(k, v)]
  | (k', v') :: d' =>
      if String.eqb k' k then (k', v) :: d' else (k', v') :: dict_set d' k v
  end.

(** [x[k]] for a string key [k]: a [KeyError] on a dictionary without the
    key, a [TypeError] on a string or a list. *)
Definition getitem (x : value) (k : string) : result value :=
  match x with
  | VDict d =>
      match dict_get d k with
      | Some v => Ok v
      | None => Raise (KeyError k)
      end
  | VStr _ | VList _ => Raise TypeError
  end.

(** Chained lookup along a path of keys. *)
Fixpoint chained_get (x : value) (keys : list string) : option value :=
  match keys with
  | [] => Some x
  | k :: ks =>
      match x with
      | VDict d =>
          match dict_get d k with
          | Some v => chained_get v ks
          | None => None
          end
      | _ => None
      end
  end.

(** ** Strings *)

Definition slash : ascii := "/"%char.

(** [s.split(sep)] for a one-character separator. *)
Fixpoint split (sep : ascii) (s : string) : list string :=
  match s with
  | EmptyString => [EmptyString]
  | String c s' =>
      if Ascii.eqb c sep then EmptyString :: split sep s'
      else match split sep s' with
           | [] => [String c EmptyString]
           | w :: ws => String c w :: ws
           end
  end.

(** [s.split(sep, 1)]: at most one cut, at the first separator. *)
Fixpoint split1 (sep : ascii) (s : string) : list string :=
  match s with
  | EmptyString => [EmptyString]
  | String c s' =>
      if Ascii.eqb c sep then [EmptyString; s']
      else match split1 sep s' with
           | [] => [String c EmptyString]
           | w :: ws => String c w :: ws
           end
  end.

(** [sep.join(l)]. *)
Fixpoint join (sep : ascii) (l : list string) : string :=
  match l with
  | [] => EmptyString
  | [s] => s
  | s :: l' => s +:+ String sep (join sep l')
  end.

(** [c in s] for a one-character string [c]. *)
Fixpoint char_in (c : ascii) (s : string) : bool :=
  match s with
  | EmptyString => false
  | String c' s' => Ascii.eqb c' c || char_in c s'
  end.

(** [x.split("/", 1)]: only strings have the method. *)
Definition method_split1 (x : value) : result (list string) :=
  match x with
  | VStr s => Ok (split1 slash s)
  | VList _ | VDict _ => Raise AttributeError
  end.

(** [(a, b) = l]: unpacking into two targets. *)
Definition unpack2 {A : Type} (l : list A) : result (A * A) :=
  match l with
  | [a; b] => Ok (a, b)
  | _ => Raise ValueError
  end.

(** Modelled from the spec: [set_dict] of [dingos.core.utilities] belongs to
    the host framework and is not part of this repository.  With command
    ['set'] it walks down the dictionary along all keys but the last,
    creating an empty dictionary for each key that is absent, and stores the
    value under the last key ("inserting a single leaf at the final
    segment").  The failures are Python's: walking into a string or a list
    ends in a [TypeError] (neither can be indexed or assigned to by a string
    key), and an empty key sequence in an [IndexError]. *)
Fixpoint set_dict (d : DingoObjDict) (v : value) (keys : list string)
  : result DingoObjDict :=
  match keys with
  | [] => Raise IndexError
  | k :: ks =>
      match ks with
      | [] => Ok (dict_set d k v)
      | _ :: _ =>
          match dict_get d k with
          | Some (VDict d') =>
              let? d'' := set_dict d' v ks in Ok (dict_set d k (VDict d''))
          | Some _ => Raise TypeError
          | None =>
              let? d'' := set_dict [] v ks in Ok (dict_set d k (VDict d''))
          end
      end
  end.

(** ** The transformer hook *)

Module Transformer.

(** [leaf]: the dictionary for the innermost element of the rewritten
    item. *)
Definition make_leaf (value_type search_condition search_value : value)
  : DingoObjDict :=
  dict_set (dict_set (dict_set [] "@value_type" value_type)
                     "@condition" search_condition)
           "_value" search_value.

Definition transformer (elt_name : string) (contents : DingoObjDict)
  : result (string * DingoObjDict) :=
  if negb (String.eqb elt_name "IndicatorItem") then Ok (elt_name, contents)
  else
    let result0 : DingoObjDict := [] in
    let? context := getitem (VDict contents) "Context" in
    let? search := getitem context "@search" in
    let? parts := method_split1 search in
    let? unpacked := unpack2 parts in
    let '(document_type, search_term) := unpacked in
    let search_term := split slash search_term in
    let? content := getitem (VDict contents) "Content" in
    let? search_value := getitem content "_value" in
    let? content' := getitem (VDict contents) "Content" in
    let? value_type := getitem content' "@type" in
    let? search_condition := getitem (VDict contents) "@condition" in
    let leaf := make_leaf value_type search_condition search_value in
    let? item_id := getitem (VDict contents) "@id" in
    let result1 := dict_set result0 "@id" item_id in
    let? result2 := set_dict result1 (VDict leaf) search_term in
    Ok (document_type, result2).

End Transformer.

(** ** XML elements as the generic importer hands them to the hooks *)

Record xml_attr : Type := {
  prop_ns : option string;
  prop_name : string;
  prop_content : string
}.

#[warnings="-register-all"]
Inductive xml_node : Type :=
| XmlNode (name : string) (properties : list xml_attr) (children : list xml_node).

Definition node_name (n : xml_node) : string :=
  match n with XmlNode name _ _ => name end.
Definition node_properties (n : xml_node) : list xml_attr :=
  match n with XmlNode _ properties _ => properties end.
Definition node_children (n : xml_node) : list xml_node :=
  match n with XmlNode _ _ children => children end.

(** The name under which an attribute is known: [ns:name] when it has a
    namespace, [name] otherwise. *)
Definition qualified_name (p : xml_attr) : string :=
  match prop_ns p with
  | Some ns => ns +:+ ":" +:+ prop_name p
  | None => prop_name p
  end.

(** Modelled from the spec: [extract_attributes] of [dingos.core.xml_utils]
    belongs to the host framework.  It returns a dictionary of the
    attributes of an element, each key being the attribute's (qualified)
    name behind the given prefix. *)
Definition extract_attributes (element : xml_node) (prefix_key_char : string)
  : gmap string string :=
  fold_left (fun acc p => <[prefix_key_char +:+ qualified_name p := prop_content p]> acc)
            (node_properties element) ∅.

(** The value of the attribute called [q] on the element, if it has one. *)
Definition attribute_of (element : xml_node) (q : string) : option string :=
  fold_left (fun o p => if decide (qualified_name p = q) then Some (prop_content p) else o)
            (node_properties element) None.

(** ** Date and time values

    [wall_clock] stands for the date and time fields of a [datetime]
    (counted in microseconds); [tzinfo] is the offset from UTC in minutes of
    an aware value and [None] for a naive one. *)

Record datetime : Type := {
  wall_clock : Z;
  tzinfo : option Z
}.

Definition utc : Z := 0.

Definition is_aware (d : datetime) : bool :=
  match tzinfo d with Some _ => true | None => false end.

Definition make_aware (d : datetime) (tz : Z) : datetime :=
  {| wall_clock := wall_clock d; tzinfo := Some tz |}.

(** The instant an aware value denotes (a naive one is read as UTC). *)
Definition instant (d : datetime) : Z :=
  wall_clock d - 60000000 * default 0 (tzinfo d).

(** ** Values seen by the fact hooks *)

Inductive pyval : Type :=
| PNone
| PBool (b : bool)
| PStr (s : string)
| PTime (t : datetime).

Definition truthy (v : pyval) : bool :=
  match v with
  | PNone => false
  | PBool b => b
  | PStr s => negb (String.eqb s EmptyString)
  | PTime _ => true
  end.

Record Identifier : Type := {
  ident_uid : pyval;
  ident_namespace_uri : string
}.

(** [FactDataType]'s kinds (mantis_core.models). *)
Inductive FactDataType : Type :=
| NO_VOCAB
| VOCAB_SINGLE
| VOCAB_MULTI
| REFERENCE.

Inductive karg : Type :=
| KVal (v : pyval)
| KKind (k : FactDataType)
| KIdentifier (i : Identifier).

(** The fact dictionary; [attribute] is [None] where Python has [False]. *)
Record fact : Type := {
  node_id : string;
  term : string;
  attribute : option string;
  fact_value : string
}.

#[global] Instance datetime_eq_dec : EqDecision datetime.
Proof. solve_decision. Defined.
#[global] Instance pyval_eq_dec : EqDecision pyval.
Proof. solve_decision. Defined.

(** ** The host: what the hooks use from dingos, mantis_core and django *)

Record id_and_rev_info : Type := {
  info_id : option string;
  info_timestamp : option datetime
}.

Record import_elt : Type := {
  elt_info : id_and_rev_info;
  elt_name : string;
  dict_repr : DingoObjDict
}.

Record import_result : Type := {
  toplevel : import_elt;
  embedded_objects : list import_elt
}.

Record host : Type := {
  DINGOS_NAMESPACE_URI : string;
  DINGOS_DEFAULT_ID_NAMESPACE_URI : string;
  DINGOS_GENERIC_FAMILY_NAME : string;
  (** [django.utils.dateparse.parse_datetime]: [None] for a string that is
      not a timestamp, an exception for one that is out of range. *)
  parse_datetime : string -> result (option datetime);
  (** [search_by_re_list] on [RE_LIST_NS_TYPE_FROM_NS_URL]: the groups
      [(family, revision)] of a matching namespace URL. *)
  search_by_re_list : string -> option (string * string);
  (** [MantisImporter.xml_import] on a file path, a content and the
      namespace dictionary, with the hooks of this class. *)
  MantisImporter_xml_import :
    option string -> option string -> gmap (option string) string -> result import_result
}.

(** Objects of the host store, as far as the reference handler sees them. *)
Record iobject : Type := {
  io_uid : pyval;
  io_namespace_uri : string;
  io_timestamp : pyval;
  io_placeholder : bool
}.

Definition same_revision (uid : pyval) (ns : string) (ts : pyval) (o : iobject) : bool :=
  bool_decide (io_uid o = uid) && bool_decide (io_namespace_uri o = ns)
  && bool_decide (io_timestamp o = ts).

Definition same_identifier (uid : pyval) (ns : string) (o : iobject) : bool :=
  bool_decide (io_uid o = uid) && bool_decide (io_namespace_uri o = ns).

(** Modelled from the spec: [MantisImporter.create_iobject] called with an
    identifier and a timestamp only "resolves or creates a placeholder
    record for the referenced object, keyed by (namespace, uid,
    timestamp)"; the result tells whether the object existed. *)
Definition create_placeholder (store : list iobject) (uid : pyval) (ns : string) (ts : pyval)
  : list iobject * bool :=
  if existsb (same_revision uid ns ts) store then (store, true)
  else ((store ++ [{| io_uid := uid; io_namespace_uri := ns;
                      io_timestamp := ts; io_placeholder := true |}])%list, false).

(** Modelled from the spec: [Identifier.objects.get(uid=.., namespace__uri=..)]
    returns the identifier of the objects with that uid and namespace and
    fails when the store has none. *)
Definition Identifier_get (store : list iobject) (uid : pyval) (ns : string)
  : result Identifier :=
  if existsb (same_identifier uid ns) store
  then Ok {| ident_uid := uid; ident_namespace_uri := ns |}
  else Raise DoesNotExist.

(** ** The instance *)

Record OpenIOC_Import : Type := {
  namespace_dict : gmap (option string) string;
  iobject_family_name : string;
  iobject_family_revision_name : string;
  create_timestamp : datetime;
  identifier_ns_uri : string
}.

(** The arguments of one call of [MantisImporter.create_iobject] made by
    [xml_import]. *)
Record create_iobject_call : Type := {
  arg_iobject_family_name : string;
  arg_iobject_family_revision_name : string;
  arg_iobject_type_name : string;
  arg_iobject_type_namespace_uri : string;
  arg_iobject_type_revision_name : string;
  arg_iobject_data : DingoObjDict;
  arg_uid : option string;
  arg_identifier_ns_uri : option string;
  arg_timestamp : datetime;
  arg_create_timestamp : datetime;
  arg_markings : list string;
  arg_namespace_dict : gmap (option string) string
}.

(** ** The hooks *)

Module Hooks.

(** The outcome of the embedding predicate: [False], [True] or the type
    name of the embedded object. *)
Inductive embedding : Type :=
| EBool (b : bool)
| EType (type_info : string).

(** The [while] loop of [cybox_embedding_pred] over the chain of
    grandchildren: it stops at the first element called [Context]. *)
Fixpoint scan_context (grandchildren : list xml_node) (type_info : option string)
  : option string :=
  match grandchildren with
  | [] => type_info
  | grandchild :: next =>
      if String.eqb (node_name grandchild) "Context" then
        let context_attributes := extract_attributes grandchild EmptyString in
        match context_attributes !! "document" with
        | Some document => Some document
        | None => type_info
        end
      else scan_context next type_info
  end.

Definition cybox_embedding_pred (parent child : xml_node)
    (ns_mapping : gmap (option string) string) : embedding :=
  let child_attributes := extract_attributes child EmptyString in
  if bool_decide (is_Some (child_attributes !! "id"))
     && String.eqb (node_name child) "IndicatorItem"
  then
    let type_info := scan_context (node_children child) None in
    match type_info with
    | Some t => if negb (String.eqb t EmptyString) then EType t else EBool true
    | None => EBool true
    end
  else EBool false.

Definition attr_ignore_predicate (fact_dict : fact) : result bool :=
  match attribute fact_dict with
  | None => Raise TypeError
  | Some a =>
      if char_in "@"%char a then Ok true
      else if bool_decide (a ∈ ["idref"; "id"; "value_type"]) then Ok true
      else Ok false
  end.

(** [namespace_mapping[None]]. *)
Definition default_namespace (namespace_mapping : gmap (option string) string)
  : result string :=
  match namespace_mapping !! None with
  | Some uri => Ok uri
  | None => Raise (KeyError "None")
  end.

(** The extractor returns its outcome together with the fact-construction
    arguments as it leaves them. *)
Definition datatype_extractor (fact_dict : fact) (attr_info : gmap string pyval)
    (namespace_mapping : gmap (option string) string)
    (add_fact_kargs : gmap string karg)
  : result bool * gmap string karg :=
  if bool_decide (is_Some (attr_info !! "idref")) then
    let embedded_type_info := default PNone (attr_info !! "@embedded_type_info") in
    if truthy embedded_type_info then
      let kargs1 := <["fact_dt_name" := KVal embedded_type_info]> add_fact_kargs in
      match default_namespace namespace_mapping with
      | Raise e => (Raise e, kargs1)
      | Ok uri =>
          let kargs2 := <["fact_dt_namespace_uri" := KVal (PStr uri)]> kargs1 in
          let kargs3 := <["fact_dt_kind" := KKind REFERENCE]> kargs2 in
          (Ok true, kargs3)
      end
    else (Ok true, add_fact_kargs)
  else
    match attr_info !! "value_type" with
    | Some value_type =>
        let kargs1 := <["fact_dt_name" := KVal value_type]> add_fact_kargs in
        match default_namespace namespace_mapping with
        | Raise e => (Raise e, kargs1)
        | Ok uri =>
            (Ok true, <["fact_dt_namespace_uri" := KVal (PStr uri)]> kargs1)
        end
    | None => (Ok false, add_fact_kargs)
    end.

(** [attr_info[k]]. *)
Definition attr_getitem (attr_info : gmap string pyval) (k : string) : result pyval :=
  match attr_info !! k with
  | Some v => Ok v
  | None => Raise (KeyError k)
  end.

(** The handler works on the host store and on the fact-construction
    arguments; both are returned as the handler leaves them. *)
Definition reference_handler (self : OpenIOC_Import) (store : list iobject)
    (fact_dict : fact) (attr_info : gmap string pyval)
    (add_fact_kargs : gmap string karg)
  : result bool * list iobject * gmap string karg :=
  let namespace_uri := identifier_ns_uri self in
  match attr_getitem attr_info "idref" with
  | Raise e => (Raise e, store, add_fact_kargs)
  | Ok uid =>
      match attr_getitem attr_info "@timestamp" with
      | Raise e => (Raise e, store, add_fact_kargs)
      | Ok timestamp =>
          let '(store', existed) := create_placeholder store uid namespace_uri timestamp in
          match Identifier_get store' uid namespace_uri with
          | Raise e => (Raise e, store', add_fact_kargs)
          | Ok target =>
              (Ok true, store', <["value_iobject_id" := KIdentifier target]> add_fact_kargs)
          end
      end
  end.

(** The predicate paired with the reference handler in
    [fact_handler_list]. *)
Definition fact_handler_predicate (fact_dict : fact) (attr_info : gmap string pyval) : bool :=
  bool_decide (is_Some (attr_info !! "idref")).

Section WithHost.

Context (H : host).

Definition id_and_revision_extractor (xml_elt : xml_node) : result id_and_rev_info :=
  let attributes := extract_attributes xml_elt "@" in
  let result_id := attributes !! "@id" in
  match attributes !! "@last-modified" with
  | Some last_modified =>
      let? parsed := parse_datetime H last_modified in
      match parsed with
      | None => Raise AttributeError
      | Some naive =>
          let aware := if negb (is_aware naive) then make_aware naive utc else naive in
          Ok {| info_id := result_id; info_timestamp := Some aware |}
      end
  | None => Ok {| info_id := result_id; info_timestamp := None |}
  end.

(** [__init__]; [now] is what [timezone.now()] reads. *)
Definition init (now : datetime) : OpenIOC_Import :=
  {| namespace_dict := {[ None := DINGOS_NAMESPACE_URI H ]};
     iobject_family_name := "ioc";
     iobject_family_revision_name := EmptyString;
     create_timestamp := now;
     identifier_ns_uri := DINGOS_DEFAULT_ID_NAMESPACE_URI H |}.

(** [elt_dict.get('@@ns', None)] as a key of the namespace dictionary; a
    dictionary or a list cannot be a key. *)
Definition ns_key (elt_dict : DingoObjDict) : result (option string) :=
  match dict_get elt_dict "@@ns" with
  | None => Ok None
  | Some (VStr ns) => Ok (Some ns)
  | Some (VList _) | Some (VDict _) => Raise TypeError
  end.

(** The loop that puts the embedded objects on the stack; it rebinds
    [id_and_rev_info] at every turn. *)
Definition push_embedded (state : id_and_rev_info * list import_elt)
    (embedded_object : import_elt) : id_and_rev_info * list import_elt :=
  (elt_info embedded_object, (state.2 ++ [embedded_object])%list).

(** The final loop: one [create_iobject] call for each pending element. *)
Fixpoint create_all (self : OpenIOC_Import) (markings : list string)
    (identifier_ns_uri_arg : option string) (ts : datetime)
    (pending_stack : list import_elt)
  : list create_iobject_call * result unit :=
  match pending_stack with
  | [] => ([], Ok tt)
  | e :: rest =>
      match ns_key (dict_repr e) with
      | Raise x => ([], Raise x)
      | Ok key =>
          let call :=
            {| arg_iobject_family_name := iobject_family_name self;
               arg_iobject_family_revision_name := iobject_family_revision_name self;
               arg_iobject_type_name := elt_name e;
               arg_iobject_type_namespace_uri :=
                 default (DINGOS_GENERIC_FAMILY_NAME H) (namespace_dict self !! key);
               arg_iobject_type_revision_name := EmptyString;
               arg_iobject_data := dict_repr e;
               arg_uid := info_id (elt_info e);
               arg_identifier_ns_uri := identifier_ns_uri_arg;
               arg_timestamp := ts;
               arg_create_timestamp := create_timestamp self;
               arg_markings := markings;
               arg_namespace_dict := namespace_dict self |} in
          let '(calls, outcome) :=
            create_all self markings identifier_ns_uri_arg ts rest in
          (call :: calls, outcome)
      end
  end.

Definition str_truthy (o : option string) : bool :=
  match o with
  | Some s => negb (String.eqb s EmptyString)
  | None => false
  end.

(** [xml_import] returns the instance as it leaves it, the calls of
    [MantisImporter.create_iobject] it made, and how it ended. *)
Definition xml_import (self : OpenIOC_Import) (now : datetime)
    (filepath xml_content : option string) (markings : option (list string))
    (identifier_ns_uri_arg : option string)
  : OpenIOC_Import * list create_iobject_call * result unit :=
  let self := init now in
  let markings := default [] markings in
  let self :=
    match identifier_ns_uri_arg with
    | Some uri =>
        if str_truthy identifier_ns_uri_arg then
          {| namespace_dict := namespace_dict self;
             iobject_family_name := iobject_family_name self;
             iobject_family_revision_name := iobject_family_revision_name self;
             create_timestamp := create_timestamp self;
             identifier_ns_uri := uri |}
        else self
    | None => self
    end in
  match MantisImporter_xml_import H filepath xml_content (namespace_dict self) with
  | Raise e => (self, [], Raise e)
  | Ok import_result =>
      let top := toplevel import_result in
      match ns_key (dict_repr top) with
      | Raise e => (self, [], Raise e)
      | Ok key =>
          let default_ns :=
            default "http://schemas.mandiant.com/unknown/ioc" (namespace_dict self !! key) in
          let self :=
            match search_by_re_list H default_ns with
            | Some (family, revision) =>
                {| namespace_dict := namespace_dict self;
                   iobject_family_name := family;
                   iobject_family_revision_name := revision;
                   create_timestamp := create_timestamp self;
                   identifier_ns_uri := identifier_ns_uri self |}
            | None => self
            end in
          let '(last_info, pending_stack) :=
            fold_left push_embedded (embedded_objects import_result)
                      (elt_info top, [top]) in
          let ts :=
            match info_timestamp last_info with
            | Some t => t
            | None => create_timestamp self
            end in
          let '(calls, outcome) :=
            create_all self markings identifier_ns_uri_arg ts pending_stack in
          (self, calls, outcome)
      end
  end.

End WithHost.

End Hooks.

(** ** Notions used in the statements *)

Module Notions.

(** The leaf record of a rewritten item. *)
Definition leaf_record (t c v : value) : value :=
  VDict [("@value_type", t); ("@condition", c); ("_value", v)].

(** What is expected of the record made from an item with search path
    [A/segs], value [v], type [t], condition [c] and id [i]. *)
Definition rewritten_as (outcome : result (string * DingoObjDict))
    (A : string) (segs : list string) (v t c i : value) : Prop :=
  exists record,
    outcome = Ok (A, record)
    /\ chained_get (VDict record) segs = Some (leaf_record t c v)
    /\ dict_get record "@id" = Some i.

Definition has_path (contents : DingoObjDict) (keys : list string) : bool :=
  match chained_get (VDict contents) keys with
  | Some _ => true
  | None => false
  end.

(** The contents lack [Context], [Content] or one of the expected
    sub-attributes. *)
Definition lacks_expected (contents : DingoObjDict) : bool :=
  negb (has_path contents ["Context"; "@search"])
  || negb (has_path contents ["Content"; "_value"])
  || negb (has_path contents ["Content"; "@type"])
  || negb (has_path contents ["@condition"])
  || negb (has_path contents ["@id"]).

(** What is present has the expected shape: [Context] and [Content] are
    dictionaries and the search path is a string with a [/]. *)
Definition well_shaped (contents : DingoObjDict) : bool :=
  match dict_get contents "Context" with
  | None => true
  | Some (VDict context) =>
      match dict_get context "@search" with
      | None => true
      | Some (VStr s) => char_in slash s
      | Some _ => false
      end
  | Some _ => false
  end
  && match dict_get contents "Content" with
     | None | Some (VDict _) => true
     | Some _ => false
     end.

(** The later of two timestamps. *)
Definition latest (a b : datetime) : datetime :=
  if (instant a <? instant b)%Z then b else a.

(** The first child called [Context], by linear scan. *)
Definition first_context (children : list xml_node) : option xml_node :=
  find (fun g => String.eqb (node_name g) "Context") children.

(** The value found under a key when a leaf is stored along the rest of a
    path: one dictionary with a single key for each further segment. *)
Definition nest (keys : list string) (leaf : value) : value :=
  fold_right (fun k v => VDict [(k, v)]) leaf keys.

(** The dictionary that holds nothing but a leaf stored along a path. *)
Definition path_dict (keys : list string) (leaf : value) : DingoObjDict :=
  match keys with
  | [] => []
  | k :: ks => [(k, nest ks leaf)]
  end.

(** What a call of [create_iobject] says about the element it is for. *)
Definition call_element (c : create_iobject_call)
  : string * option string * DingoObjDict :=
  (arg_iobject_type_name c, arg_uid c, arg_iobject_data c).

Definition element_of (e : import_elt) : string * option string * DingoObjDict :=
  (elt_name e, info_id (elt_info e), dict_repr e).

(** The fact-construction arguments that say what the data type is. *)
Definition datatype_keys : list string :=
  ["fact_dt_name"; "fact_dt_namespace_uri"; "fact_dt_kind"].

(** The timestamp [xml_import] passes on: the one of the element that was
    put on the stack last, or the creation time of the instance. *)
Definition chosen_timestamp (now : datetime) (imported : import_result) : datetime :=
  default now
    (info_timestamp (List.last (map elt_info (embedded_objects imported))
                               (elt_info (toplevel imported)))).

End Notions.

(** ** Sample inputs *)

Module Samples.

(** The item of the importer's documentation. *)
Definition stub_item : DingoObjDict :=
  [("@id", VStr "b9ef2559-cc59-4463-81d9-52800545e16e");
   ("@condition", VStr "contains");
   ("Context", VDict [("@document", VStr "FileItem");
                      ("@search", VStr "FileItem/PEInfo/Sections/Section/Name");
                      ("@type", VStr "mir")]);
   ("Content", VDict [("@type", VStr "string"); ("_value", VStr ".stub")])].

(** An item whose search path runs through [@id]. *)
Definition id_path_item : DingoObjDict :=
  [("@id", VStr "X");
   ("@condition", VStr "contains");
   ("Context", VDict [("@document", VStr "FileItem");
                      ("@search", VStr "FileItem/@id/Section/Name");
                      ("@type", VStr "mir")]);
   ("Content", VDict [("@type", VStr "string"); ("_value", VStr ".stub")])].

(** An item without [Content] whose search path has no [/]. *)
Definition no_content_item : DingoObjDict :=
  [("@id", VStr "X");
   ("@condition", VStr "is");
   ("Context", VDict [("@document", VStr "FileItem");
                      ("@search", VStr "FileItem");
                      ("@type", VStr "mir")])].

(** An item without [Content] and with a regular search path. *)
Definition no_content_item' : DingoObjDict :=
  [("@id", VStr "X");
   ("@condition", VStr "is");
   ("Context", VDict [("@document", VStr "FileItem");
                      ("@search", VStr "FileItem/Md5sum");
                      ("@type", VStr "mir")])].

(** A fact for the attribute [a@b] of some node. *)
Definition odd_attribute_fact : fact :=
  {| node_id := "N000:A000"; term := "Name"; attribute := Some "a@b";
     fact_value := "x" |}.

Definition condition_fact : fact :=
  {| node_id := "N000:A000"; term := "Name"; attribute := Some "condition";
     fact_value := "contains" |}.

Definition plain_attr (name content : string) : xml_attr :=
  {| prop_ns := None; prop_name := name; prop_content := content |}.

(** [<IndicatorItem id=.. condition=..>] with a [Context] whose [document]
    attribute is as given, and a [Content]. *)
Definition indicator_item (document : string) : xml_node :=
  XmlNode "IndicatorItem"
    [plain_attr "id" "b9ef2559"; plain_attr "condition" "contains"]
    [XmlNode "text" [] [];
     XmlNode "Context"
       [plain_attr "document" document;
        plain_attr "search" "FileItem/PEInfo/Sections/Section/Name";
        plain_attr "type" "mir"] [];
     XmlNode "Content" [plain_attr "type" "string"] [XmlNode "text" [] []]].

Definition indicator : xml_node :=
  XmlNode "Indicator" [plain_attr "id" "1234"; plain_attr "operator" "OR"]
    [indicator_item "FileItem"].

Definition ioc (last_modified : string) : xml_node :=
  XmlNode "ioc" [plain_attr "id" "6d2a1b03"; plain_attr "last-modified" last_modified]
    [indicator].

Definition noon_naive : datetime := {| wall_clock := 43200000000; tzinfo := None |}.
Definition noon_cet : datetime := {| wall_clock := 43200000000; tzinfo := Some 60 |}.
Definition noon_utc : datetime := {| wall_clock := 43200000000; tzinfo := Some 0 |}.
Definition evening_utc : datetime := {| wall_clock := 72000000000; tzinfo := Some 0 |}.

Definition sample_parse (s : string) : result (option datetime) :=
  if String.eqb s "2013-03-12T12:00:00" then Ok (Some noon_naive)
  else if String.eqb s "2013-03-12T12:00:00+01:00" then Ok (Some noon_cet)
  else if String.eqb s "2013-13-12T12:00:00" then Raise ValueError
  else Ok None.

Definition sample_families (uri : string) : option (string * string) :=
  if String.eqb uri "http://schemas.mandiant.com/2010/ioc" then Some ("ioc", "2010")
  else None.

(** A host that answers every import with the given result; the three
    constants stand for the values dingos gives them. *)
Definition sample_host (imported : import_result) : host :=
  {| DINGOS_NAMESPACE_URI := "dingos.example/namespace";
     DINGOS_DEFAULT_ID_NAMESPACE_URI := "dingos.example/default-ids";
     DINGOS_GENERIC_FAMILY_NAME := "dingos.example/generic";
     parse_datetime := sample_parse;
     search_by_re_list := sample_families;
     MantisImporter_xml_import := fun _ _ _ => Ok imported |}.

Definition ioc_elt : import_elt :=
  {| elt_info := {| info_id := Some "6d2a1b03"; info_timestamp := Some noon_utc |};
     elt_name := "ioc";
     dict_repr := [("@id", VStr "6d2a1b03")] |}.

Definition file_item_elt : import_elt :=
  {| elt_info := {| info_id := Some "b9ef2559"; info_timestamp := None |};
     elt_name := "FileItem";
     dict_repr := [("@id", VStr "b9ef2559")] |}.

Definition import_without_items : import_result :=
  {| toplevel := ioc_elt; embedded_objects := [] |}.

Definition import_with_item : import_result :=
  {| toplevel := ioc_elt; embedded_objects := [file_item_elt] |}.

Definition blank_instance : OpenIOC_Import :=
  {| namespace_dict := ∅;
     iobject_family_name := EmptyString;
     iobject_family_revision_name := EmptyString;
     create_timestamp := noon_naive;
     identifier_ns_uri := EmptyString |}.

Definition reference_attrs : gmap string pyval :=
  <["idref" := PStr "b9ef2559"]> (<["@timestamp" := PTime noon_utc]> ∅).

Definition typed_reference_attrs : gmap string pyval :=
  <["@embedded_type_info" := PStr "FileItem"]> reference_attrs.

Definition leaf_attrs : gmap string pyval :=
  <["value_type" := PStr "string"]> (<["condition" := PStr "contains"]> ∅).

Definition default_ns_mapping : gmap (option string) string :=
  {[ None := "dingos.example/namespace" ]}.

(** An item whose search path is [FileItem/@id]. *)
Definition id_leaf_item : DingoObjDict :=
  [("@id", VStr "X");
   ("@condition", VStr "is");
   ("Context", VDict [("@search", VStr "FileItem/@id")]);
   ("Content", VDict [("@type", VStr "string"); ("_value", VStr "Y")])].

(** The item of the documentation with its keys in another order and a
    further attribute. *)
Definition stub_item' : DingoObjDict :=
  [("Content", VDict [("@type", VStr "string"); ("_value", VStr ".stub")]);
   ("@negate", VStr "false");
   ("Context", VDict [("@document", VStr "FileItem");
                      ("@search", VStr "FileItem/PEInfo/Sections/Section/Name");
                      ("@type", VStr "mir")]);
   ("@condition", VStr "contains");
   ("@id", VStr "b9ef2559-cc59-4463-81d9-52800545e16e")].

Definition false_attribute_fact : fact :=
  {| node_id := "N000"; term := "Name"; attribute := None; fact_value := ".stub" |}.

(** An item with two [Context] children, the first without [document]. *)
Definition two_context_item : xml_node :=
  XmlNode "IndicatorItem" [plain_attr "id" "b9ef2559"]
    [XmlNode "text" [] [];
     XmlNode "Context" [plain_attr "search" "FileItem/Md5sum"] [];
     XmlNode "Context" [plain_attr "document" "FileItem"] []].

Definition both_attrs : gmap string pyval :=
  <["value_type" := PStr "string"]> typed_reference_attrs.

Definition some_kargs : gmap string karg :=
  <["fact_term_name" := KVal (PStr "PEInfo/Sections/Section/Name")]>
    (<["fact_dt_kind" := KKind NO_VOCAB]> ∅).

Definition timed_item_elt : import_elt :=
  {| elt_info := {| info_id := Some "0a1b2c3d"; info_timestamp := Some noon_cet |};
     elt_name := "RegistryItem";
     dict_repr := [("@id", VStr "0a1b2c3d")] |}.

Definition import_with_items : import_result :=
  {| toplevel := ioc_elt; embedded_objects := [timed_item_elt; file_item_elt] |}.

(** A host whose import fails. *)
Definition failing_host : host :=
  {| DINGOS_NAMESPACE_URI := "dingos.example/namespace";
     DINGOS_DEFAULT_ID_NAMESPACE_URI := "dingos.example/default-ids";
     DINGOS_GENERIC_FAMILY_NAME := "dingos.example/generic";
     parse_datetime := sample_parse;
     search_by_re_list := sample_families;
     MantisImporter_xml_import := fun _ _ _ => Raise ValueError |}.

End Samples.

(** * Properties *)

(** ** Dictionaries *)

Lemma dict_get_set_eq (d : DingoObjDict) (k : string) (v : value) :
  dict_get (dict_set d k v) k = Some v.
Proof.
  induction d as [|[k' v'] d IH]; simpl.
  - now rewrite String.eqb_refl.
  - destruct (String.eqb k' k) eqn:E; simpl; rewrite E; [reflexivity | exact IH].
Qed.

Lemma dict_get_set_ne (d : DingoObjDict) (k k' : string) (v : value) :
  k <> k' -> dict_get (dict_set d k v) k' = dict_get d k'.
Proof.
  intros Hne. induction d as [|[k0 v0] d IH]; simpl.
  - destruct (String.eqb k k') eqn:E; [|reflexivity].
    apply String.eqb_eq in E. contradiction.
  - destruct (String.eqb k0 k) eqn:E; simpl.
    + apply String.eqb_eq in E. subst k0.
      destruct (String.eqb k k') eqn:E'; [|reflexivity].
      apply String.eqb_eq in E'. contradiction.
    + now rewrite IH.
Qed.

(** ** Splitting and joining *)

Lemma append_cons (c : ascii) (s t : string) : String c s +:+ t = String c (s +:+ t).
Proof. reflexivity. Qed.

Lemma append_nil (t : string) : EmptyString +:+ t = t.
Proof. reflexivity. Qed.

Lemma split_nonempty (sep : ascii) (s : string) : split sep s <> [].
Proof.
  induction s as [|c s IH]; simpl; [discriminate|].
  destruct (Ascii.eqb c sep); [discriminate|].
  destruct (split sep s); [contradiction | discriminate].
Qed.

Lemma split_no_sep (sep : ascii) (s : string) :
  char_in sep s = false -> split sep s = [s].
Proof.
  induction s as [|c s IH]; simpl; [reflexivity|].
  intros Hc. apply orb_false_iff in Hc as [Hc Hs].
  rewrite Hc, (IH Hs). reflexivity.
Qed.

Lemma split_append (sep : ascii) (a rest : string) :
  char_in sep a = false ->
  split sep (a +:+ String sep rest) = a :: split sep rest.
Proof.
  induction a as [|c a IH]; intros Hc.
  - rewrite append_nil. simpl. now rewrite Ascii.eqb_refl.
  - simpl in Hc. apply orb_false_iff in Hc as [Hc Ha].
    rewrite append_cons. simpl. rewrite Hc, (IH Ha). reflexivity.
Qed.

Lemma split1_append (sep : ascii) (a rest : string) :
  char_in sep a = false ->
  split1 sep (a +:+ String sep rest) = [a; rest].
Proof.
  induction a as [|c a IH]; intros Hc.
  - rewrite append_nil. simpl. now rewrite Ascii.eqb_refl.
  - simpl in Hc. apply orb_false_iff in Hc as [Hc Ha].
    rewrite append_cons. simpl. rewrite Hc, (IH Ha). reflexivity.
Qed.

Lemma split1_has_sep (sep : ascii) (s : string) :
  char_in sep s = true -> exists a b, split1 sep s = [a; b].
Proof.
  induction s as [|c s IH]; simpl; [discriminate|].
  destruct (Ascii.eqb c sep); simpl; intros Hc; [eauto|].
  destruct (IH Hc) as (a & b & ->). eauto.
Qed.

Lemma split1_no_sep (sep : ascii) (s : string) :
  char_in sep s = false -> split1 sep s = [s].
Proof.
  induction s as [|c s IH]; simpl; [reflexivity|].
  intros Hc. apply orb_false_iff in Hc as [Hc Hs].
  rewrite Hc, (IH Hs). reflexivity.
Qed.

(** Splitting a joined path gives its segments back. *)
Lemma split_join (sep : ascii) (segs : list string) :
  segs <> [] ->
  Forall (fun s => char_in sep s = false) segs ->
  split sep (join sep segs) = segs.
Proof.
  induction segs as [|s segs IH]; [congruence|].
  intros _ Hall. inversion Hall as [|? ? Hs Hrest]; subst.
  destruct segs as [|s' segs].
  - simpl. now apply split_no_sep.
  - change (join sep (s :: s' :: segs)) with (s +:+ String sep (join sep (s' :: segs))).
    rewrite split_append by exact Hs.
    rewrite IH; [reflexivity | discriminate | exact Hrest].
Qed.

Lemma char_in_spec (c : ascii) (s : string) :
  char_in c s = true <-> exists pre post, s = pre +:+ String c post.
Proof.
  split.
  - induction s as [|c' s IH]; simpl; [discriminate|].
    destruct (Ascii.eqb c' c) eqn:E; simpl.
    + apply Ascii.eqb_eq in E. subst c'. intros _. exists EmptyString, s. reflexivity.
    + intros Hs. destruct (IH Hs) as (pre & post & ->).
      exists (String c' pre), post. reflexivity.
  - intros (pre & post & ->). induction pre as [|c' pre IH].
    + rewrite append_nil. simpl. now rewrite Ascii.eqb_refl.
    + rewrite append_cons. simpl. rewrite IH. apply orb_true_r.
Qed.

(** ** [set_dict] on a path whose first key is new *)

Lemma set_dict_fresh (keys : list string) :
  forall (d : DingoObjDict) (v : value),
    keys <> [] ->
    dict_get d (hd EmptyString keys) = None ->
    exists r, set_dict d v keys = Ok r
              /\ chained_get (VDict r) keys = Some v
              /\ forall k, k <> hd EmptyString keys -> dict_get r k = dict_get d k.
Proof.
  induction keys as [|k ks IH]; intros d v Hne Hfresh; [congruence|].
  destruct ks as [|k' ks].
  - exists (dict_set d k v). simpl. rewrite dict_get_set_eq.
    repeat split. intros k0 Hk0. apply dict_get_set_ne. congruence.
  - simpl in Hfresh.
    destruct (IH [] v) as (r' & Hset & Hget & _); [discriminate | reflexivity |].
    exists (dict_set d k (VDict r')).
    change (set_dict d v (k :: k' :: ks)) with
      (match dict_get d k with
       | Some (VDict d') =>
           let? d'' := set_dict d' v (k' :: ks) in Ok (dict_set d k (VDict d''))
       | Some _ => Raise TypeError
       | None =>
           let? d'' := set_dict [] v (k' :: ks) in Ok (dict_set d k (VDict d''))
       end).
    rewrite Hfresh, Hset. simpl bind.
    repeat split.
    + change (chained_get (VDict (dict_set d k (VDict r'))) (k :: k' :: ks)) with
        (match dict_get (dict_set d k (VDict r')) k with
         | Some x => chained_get x (k' :: ks)
         | None => None
         end).
      rewrite dict_get_set_eq. exact Hget.
    + intros k0 Hk0. apply dict_get_set_ne. simpl in Hk0. congruence.
Qed.

(** ** The transformer *)

Module TransformerProps.
Import Transformer Notions Samples.

Lemma leaf_is_record (t c v : value) : VDict (make_leaf t c v) = leaf_record t c v.
Proof. reflexivity. Qed.

(** The transformer on an item all of whose parts are there. *)
Lemma transformer_item_eq (contents context content : DingoObjDict)
    (s : string) (v t c i : value) :
  dict_get contents "Context" = Some (VDict context) ->
  dict_get context "@search" = Some (VStr s) ->
  dict_get contents "Content" = Some (VDict content) ->
  dict_get content "_value" = Some v ->
  dict_get content "@type" = Some t ->
  dict_get contents "@condition" = Some c ->
  dict_get contents "@id" = Some i ->
  transformer "IndicatorItem" contents =
    let? unpacked := unpack2 (split1 slash s) in
    let? record := set_dict [("@id", i)] (leaf_record t c v) (split slash unpacked.2) in
    Ok (unpacked.1, record).
Proof.
  intros Hcx Hs Hct Hv Ht Hc Hi.
  unfold transformer, getitem. simpl negb. cbv iota.
  rewrite Hcx. simpl bind. rewrite Hs. simpl bind.
  destruct (unpack2 (split1 slash s)) as [[document_type search_term]|e]; simpl bind;
    [|reflexivity].
  rewrite Hct. simpl bind. rewrite Hv. simpl bind.
  rewrite Ht. simpl bind. rewrite Hc. simpl bind. rewrite Hi. simpl bind.
  rewrite leaf_is_record. reflexivity.
Qed.

(** C1 (as amended): for an IndicatorItem with search path [A/B/.../D]
    whose first segment [B] after the document type is not ["@id"], value
    [v], type [t], condition [c] and id [i], the transformer returns the
    element name [A] and a record in which the path [B -> ... -> D] holds
    the leaf [{"@value_type": t, "@condition": c, "_value": v}] and whose
    ["@id"] is [i]. *)
Theorem transformer_rewrites_item (contents context content : DingoObjDict)
    (A : string) (segs : list string) (v t c i : value) :
  dict_get contents "Context" = Some (VDict context) ->
  dict_get context "@search" = Some (VStr (join slash (A :: segs))) ->
  dict_get contents "Content" = Some (VDict content) ->
  dict_get content "_value" = Some v ->
  dict_get content "@type" = Some t ->
  dict_get contents "@condition" = Some c ->
  dict_get contents "@id" = Some i ->
  char_in slash A = false ->
  Forall (fun s => char_in slash s = false) segs ->
  segs <> [] ->
  hd EmptyString segs <> "@id" ->
  rewritten_as (transformer "IndicatorItem" contents) A segs v t c i.
Proof.
  intros Hcx Hs Hct Hv Ht Hc Hi HA Hsegs Hne Hhd.
  rewrite (transformer_item_eq _ _ _ _ _ _ _ _ Hcx Hs Hct Hv Ht Hc Hi).
  destruct segs as [|B segs]; [congruence|].
  change (join slash (A :: B :: segs)) with (A +:+ String slash (join slash (B :: segs))).
  rewrite split1_append by exact HA. cbn [bind unpack2 fst snd].
  rewrite split_join by (assumption || discriminate).
  destruct (set_dict_fresh (B :: segs) [("@id", i)] (leaf_record t c v))
    as (record & Hset & Hget & Hother); [discriminate| |].
  - cbn [hd dict_get]. destruct (String.eqb "@id" B) eqn:E; [|reflexivity].
    apply String.eqb_eq in E. cbn [hd] in Hhd. congruence.
  - rewrite Hset. cbn [bind]. exists record. repeat split; [exact Hget|].
    rewrite Hother; [reflexivity|]. cbn [hd] in *. congruence.
Qed.

Lemma transformer_rewrites_item_witness :
  rewritten_as (transformer "IndicatorItem" stub_item)
    "FileItem" ["PEInfo"; "Sections"; "Section"; "Name"]
    (VStr ".stub") (VStr "string") (VStr "contains")
    (VStr "b9ef2559-cc59-4463-81d9-52800545e16e").
Proof.
  apply (transformer_rewrites_item stub_item
           [("@document", VStr "FileItem");
            ("@search", VStr "FileItem/PEInfo/Sections/Section/Name");
            ("@type", VStr "mir")]
           [("@type", VStr "string"); ("_value", VStr ".stub")]);
    try reflexivity.
  - repeat constructor.
  - discriminate.
  - discriminate.
Defined.

(** The end-to-end example of the specification. *)
Example transformer_stub_item :
  transformer "IndicatorItem" stub_item =
    Ok ("FileItem",
        [("@id", VStr "b9ef2559-cc59-4463-81d9-52800545e16e");
         ("PEInfo",
          VDict [("Sections",
                  VDict [("Section",
                          VDict [("Name",
                                  VDict [("@value_type", VStr "string");
                                         ("@condition", VStr "contains");
                                         ("_value", VStr ".stub")])])])])]).
Proof. reflexivity. Qed.

(** C1, counterexample: on the search path [FileItem/@id/Section/Name] the
    walk runs into the identifier stored under ["@id"], and the transformer
    raises instead of returning a record. *)
Lemma transformer_id_segment_fails :
  transformer "IndicatorItem" id_path_item = Raise TypeError
  /\ ~ rewritten_as (transformer "IndicatorItem" id_path_item)
         "FileItem" ["@id"; "Section"; "Name"]
         (VStr ".stub") (VStr "string") (VStr "contains") (VStr "X").
Proof.
  split; [reflexivity|].
  intros (record & Hret & _). vm_compute in Hret. discriminate.
Qed.

(** C7: on every element that is not an IndicatorItem the transformer
    returns the name and the contents it was given. *)
Theorem transformer_identity (elt_name : string) (contents : DingoObjDict) :
  elt_name <> "IndicatorItem" ->
  transformer elt_name contents = Ok (elt_name, contents).
Proof.
  intros Hne. unfold transformer.
  destruct (String.eqb elt_name "IndicatorItem") eqn:E; [|reflexivity].
  apply String.eqb_eq in E. contradiction.
Qed.

Lemma transformer_identity_witness :
  "Indicator" <> "IndicatorItem"
  /\ transformer "Indicator" stub_item = Ok ("Indicator", stub_item).
Proof.
  split; [discriminate|].
  apply (transformer_identity "Indicator" stub_item). discriminate.
Defined.

End TransformerProps.

Module MalformedItems.
Import Transformer Notions Samples.

(** Either way of ending a case: the transformer has raised, and with a
    [KeyError] where that is asked for. *)
Ltac raised :=
  intros; split;
  [ eexists; reflexivity
  | intros; first [ discriminate | eexists; reflexivity ] ].

Ltac lookup d k :=
  destruct (dict_get d k) as [[?|?|?]|] eqn:?;
  cbn [bind negb orb andb]; try solve [raised].

(** C8 (as amended): for an IndicatorItem whose contents lack [Context],
    [Content] or one of the expected sub-attributes, the transformer never
    returns a result: it raises an error; and the error is a lookup error
    (a [KeyError]) whenever the parts that are present have the expected
    shape ([Context] and [Content] are dictionaries and the search path is
    a string with a [/]). *)
Theorem transformer_malformed_raises (contents : DingoObjDict) :
  lacks_expected contents = true ->
  raises (transformer "IndicatorItem" contents)
  /\ (well_shaped contents = true ->
      exists k, transformer "IndicatorItem" contents = Raise (KeyError k)).
Proof.
  unfold lacks_expected, has_path, well_shaped, raises, transformer, getitem.
  simpl negb at 1. cbv iota. cbn [chained_get].
  lookup contents "Context".
  match goal with |- context [dict_get ?cx "@search"] => lookup cx "@search" end;
    try solve [unfold method_split1; cbn [bind]; raised].
  unfold method_split1. cbn [bind].
  match goal with |- context [split1 slash ?s] =>
    destruct (char_in slash s) eqn:Hsep;
    [ destruct (split1_has_sep slash s Hsep) as (a & b & ->)
    | rewrite (split1_no_sep slash s Hsep) ]
  end; cbn [unpack2 bind]; try solve [raised].
  lookup contents "Content".
  match goal with |- context [dict_get ?ct "_value"] => lookup ct "_value" end.
  all: match goal with |- context [dict_get ?ct "@type"] => lookup ct "@type" end.
  all: lookup contents "@condition".
  all: lookup contents "@id".
  all: discriminate.
Qed.

Lemma transformer_malformed_raises_witness :
  raises (transformer "IndicatorItem" no_content_item')
  /\ exists k, transformer "IndicatorItem" no_content_item' = Raise (KeyError k).
Proof.
  destruct (transformer_malformed_raises no_content_item' eq_refl) as [Hraises Hkey].
  split; [exact Hraises | exact (Hkey eq_refl)].
Defined.

Example transformer_no_content :
  transformer "IndicatorItem" no_content_item' = Raise (KeyError "Content").
Proof. reflexivity. Qed.

(** C8, counterexample: an item without [Content] whose search path has no
    [/] fails in the unpacking of the split path, with a [ValueError], which
    is not a lookup error. *)
Lemma transformer_malformed_value_error :
  lacks_expected no_content_item = true
  /\ transformer "IndicatorItem" no_content_item = Raise ValueError
  /\ ~ (exists e, transformer "IndicatorItem" no_content_item = Raise e
                  /\ is_lookup_error e = true).
Proof.
  split; [reflexivity|]. split; [reflexivity|].
  intros (e & He & Hlookup). vm_compute in He.
  injection He as <-. discriminate.
Qed.

End MalformedItems.

(** ** Attributes of an element *)

Lemma append_inj_l (p a b : string) : p +:+ a = p +:+ b -> a = b.
Proof.
  induction p as [|c p IH]; [easy|].
  rewrite !append_cons. intros Heq. injection Heq as Heq. auto.
Qed.

Lemma extract_attributes_lookup (element : xml_node) (prefix q : string) :
  extract_attributes element prefix !! (prefix +:+ q) = attribute_of element q.
Proof.
  unfold extract_attributes, attribute_of.
  generalize (∅ : gmap string string) (@None string) (lookup_empty (M:=gmap string) (A:=string) (prefix +:+ q)).
  induction (node_properties element) as [|p props IH]; intros acc o Hacc; simpl.
  - exact Hacc.
  - apply IH. destruct (decide (qualified_name p = q)) as [->|Hne].
    + apply lookup_insert_eq.
    + rewrite lookup_insert_ne; [exact Hacc|].
      intros Heq. apply append_inj_l in Heq. contradiction.
Qed.

Lemma extract_attributes_plain (element : xml_node) (q : string) :
  extract_attributes element EmptyString !! q = attribute_of element q.
Proof. exact (extract_attributes_lookup element EmptyString q). Qed.

Lemma extract_attributes_at (element : xml_node) (q : string) :
  extract_attributes element "@" !! String "@" q = attribute_of element q.
Proof. exact (extract_attributes_lookup element "@" q). Qed.

(** An element has an attribute called [q] exactly when one of its
    properties bears that name. *)
Lemma attribute_of_is_Some (element : xml_node) (q : string) :
  is_Some (attribute_of element q)
  <-> exists p, In p (node_properties element) /\ qualified_name p = q.
Proof.
  unfold attribute_of.
  assert (Hgen : forall props o,
            is_Some (fold_left (fun o p => if decide (qualified_name p = q)
                                           then Some (prop_content p) else o) props o)
            <-> is_Some o \/ exists p, In p props /\ qualified_name p = q).
  { induction props as [|p props IH]; intros o; simpl.
    - split; [auto | intros [Ho | (p & [] & _)]; exact Ho].
    - rewrite IH. destruct (decide (qualified_name p = q)) as [Heq|Hne].
      + split; [intros _; right; eauto | intros _; left; eauto].
      + split.
        * intros [Ho | (p' & Hin & Hq)]; [auto | right; eauto].
        * intros [Ho | (p' & [<- | Hin] & Hq)]; [auto | contradiction | right; eauto]. }
  rewrite Hgen. split; [intros [Ho | Hex]; [destruct Ho; discriminate | exact Hex] | auto].
Qed.

(** ** The hooks *)

Module HookProps.
Import Hooks Notions Samples.

Lemma scan_context_first (children : list xml_node) (type_info : option string) :
  scan_context children type_info =
    match first_context children with
    | Some context =>
        match attribute_of context "document" with
        | Some document => Some document
        | None => type_info
        end
    | None => type_info
    end.
Proof.
  unfold first_context.
  induction children as [|g children IH]; simpl; [reflexivity|].
  destruct (String.eqb (node_name g) "Context"); [|exact IH].
  now rewrite extract_attributes_plain.
Qed.

(** C4 (as amended): the embedding classifier returns [False] whenever the
    child is not called [IndicatorItem] or has no [id] attribute; for an
    [IndicatorItem] with an [id] it returns the [document] attribute of the
    child's first [Context] child when that attribute is there and is not
    the empty string, and [True] otherwise. *)
Theorem cybox_embedding_pred_spec (parent child : xml_node)
    (ns_mapping : gmap (option string) string) :
  (node_name child <> "IndicatorItem" \/ attribute_of child "id" = None ->
   cybox_embedding_pred parent child ns_mapping = EBool false)
  /\ (node_name child = "IndicatorItem" ->
      is_Some (attribute_of child "id") ->
      cybox_embedding_pred parent child ns_mapping =
        match first_context (node_children child) with
        | Some context =>
            match attribute_of context "document" with
            | Some document =>
                if String.eqb document EmptyString then EBool true else EType document
            | None => EBool true
            end
        | None => EBool true
        end).
Proof.
  unfold cybox_embedding_pred. rewrite extract_attributes_plain. split.
  - intros [Hname | Hid].
    + destruct (String.eqb (node_name child) "IndicatorItem") eqn:E.
      * apply String.eqb_eq in E. contradiction.
      * now rewrite andb_false_r.
    + rewrite Hid. rewrite bool_decide_eq_false_2; [reflexivity|].
      intros [x Hx]. discriminate.
  - intros Hname Hid. rewrite Hname, (bool_decide_eq_true_2 _ Hid).
    rewrite String.eqb_refl. cbn [andb].
    rewrite scan_context_first.
    destruct (first_context (node_children child)) as [context|]; [|reflexivity].
    destruct (attribute_of context "document") as [document|]; [|reflexivity].
    now destruct (String.eqb document EmptyString).
Qed.

Lemma cybox_embedding_pred_spec_witness :
  cybox_embedding_pred indicator (indicator_item "FileItem") default_ns_mapping
    = EType "FileItem"
  /\ cybox_embedding_pred (ioc "2013-03-12T12:00:00") indicator default_ns_mapping
    = EBool false.
Proof.
  split.
  - destruct (cybox_embedding_pred_spec indicator (indicator_item "FileItem")
                default_ns_mapping) as [_ Hitem].
    rewrite Hitem; [reflexivity | reflexivity | now exists "b9ef2559"].
  - destruct (cybox_embedding_pred_spec (ioc "2013-03-12T12:00:00") indicator
                default_ns_mapping) as [Hother _].
    apply Hother. left. discriminate.
Defined.

(** C4, counterexample: with an empty [document] attribute on the first [Context] child the
    attribute is there, and the classifier returns [True], not its value. *)
Lemma cybox_embedding_pred_empty_document :
  node_name (indicator_item EmptyString) = "IndicatorItem"
  /\ attribute_of (indicator_item EmptyString) "id" = Some "b9ef2559"
  /\ (exists context,
        first_context (node_children (indicator_item EmptyString)) = Some context
        /\ attribute_of context "document" = Some EmptyString)
  /\ cybox_embedding_pred indicator (indicator_item EmptyString) default_ns_mapping = EBool true
  /\ cybox_embedding_pred indicator (indicator_item EmptyString) default_ns_mapping <> EType EmptyString.
Proof.
  split; [reflexivity|]. split; [reflexivity|]. split.
  - eexists. split; reflexivity.
  - split; [reflexivity | discriminate].
Qed.

(** C3 (as amended): for every attribute key [k] the suppression predicate
    returns [True] if and only if [k] is one of [idref], [id], [value_type]
    or [k] has the marker [@] somewhere in it (not only in front); for every
    other key it returns [False]. *)
Theorem attr_ignore_predicate_spec (fact_dict : fact) (k : string) :
  attribute fact_dict = Some k ->
  exists b, attr_ignore_predicate fact_dict = Ok b
            /\ (b = true <->
                (k = "idref" \/ k = "id" \/ k = "value_type")
                \/ exists pre post, k = pre +:+ String "@"%char post).
Proof.
  intros Hk. unfold attr_ignore_predicate. rewrite Hk.
  destruct (char_in "@"%char k) eqn:Hat.
  - exists true. split; [reflexivity|]. split; [|reflexivity].
    intros _. right. now apply char_in_spec.
  - assert (Hno : ~ exists pre post, k = pre +:+ String "@"%char post).
    { intros Hex. apply char_in_spec in Hex. congruence. }
    assert (Hmem : k ∈ ["idref"; "id"; "value_type"]
                   <-> k = "idref" \/ k = "id" \/ k = "value_type").
    { rewrite !elem_of_cons, elem_of_nil. tauto. }
    case_bool_decide as Hin.
    + exists true. split; [reflexivity|]. split; [|reflexivity].
      intros _. left. now apply Hmem.
    + exists false. split; [reflexivity|]. split; [discriminate|].
      intros [Hlist | Hex]; [|contradiction].
      exfalso. apply Hin. now apply Hmem.
Qed.

Lemma attr_ignore_predicate_spec_witness :
  exists b, attr_ignore_predicate condition_fact = Ok b
            /\ (b = true <->
                ("condition" = "idref" \/ "condition" = "id" \/ "condition" = "value_type")
                \/ exists pre post, "condition" = pre +:+ String "@"%char post).
Proof.
  apply (attr_ignore_predicate_spec condition_fact "condition"). reflexivity.
Defined.

Example attr_ignore_predicate_condition :
  attr_ignore_predicate condition_fact = Ok false.
Proof. reflexivity. Qed.

(** C3, counterexample: the key [a@b] is none of the three names and does
    not begin with the marker, and yet the predicate returns [True]. *)
Lemma attr_ignore_predicate_inner_marker :
  attribute odd_attribute_fact = Some "a@b"
  /\ String.prefix "@" "a@b" = false
  /\ bool_decide ("a@b" ∈ ["idref"; "id"; "value_type"]) = false
  /\ attr_ignore_predicate odd_attribute_fact = Ok true.
Proof. repeat split. Qed.

End HookProps.

(** ** The hooks on facts *)

Module FactHookProps.
Import Hooks Notions Samples.

(** C5 (as amended): when the attributes have [idref] and a (non-empty)
    embedded-type marker, the extractor makes the marker the data-type name,
    sets the kind to the reference type and returns [True]; when they have
    [idref] but no such marker it returns [True] and leaves the
    fact-construction arguments as they are; else, when they have
    [value_type], it makes that value the data-type name and returns [True];
    otherwise it returns [False] and changes nothing.  Where it changes the
    arguments it also sets the data-type namespace to the default namespace
    of the mapping, which is taken to have one. *)
Theorem datatype_extractor_spec (fact_dict : fact) (attr_info : gmap string pyval)
    (namespace_mapping : gmap (option string) string)
    (add_fact_kargs : gmap string karg) :
  (is_Some (attr_info !! "idref") ->
   let marker := default PNone (attr_info !! "@embedded_type_info") in
   (truthy marker = false ->
    datatype_extractor fact_dict attr_info namespace_mapping add_fact_kargs
      = (Ok true, add_fact_kargs))
   /\ (truthy marker = true ->
       forall uri, namespace_mapping !! None = Some uri ->
       datatype_extractor fact_dict attr_info namespace_mapping add_fact_kargs
         = (Ok true,
            <["fact_dt_kind" := KKind REFERENCE]>
              (<["fact_dt_namespace_uri" := KVal (PStr uri)]>
                 (<["fact_dt_name" := KVal marker]> add_fact_kargs)))))
  /\ (attr_info !! "idref" = None ->
      forall value_type uri,
        attr_info !! "value_type" = Some value_type ->
        namespace_mapping !! None = Some uri ->
        datatype_extractor fact_dict attr_info namespace_mapping add_fact_kargs
          = (Ok true,
             <["fact_dt_namespace_uri" := KVal (PStr uri)]>
               (<["fact_dt_name" := KVal value_type]> add_fact_kargs)))
  /\ (attr_info !! "idref" = None ->
      attr_info !! "value_type" = None ->
      datatype_extractor fact_dict attr_info namespace_mapping add_fact_kargs
        = (Ok false, add_fact_kargs)).
Proof.
  unfold datatype_extractor, default_namespace.
  split; [intros Hsome; split | split].
  - intros Hfalsy. rewrite (bool_decide_eq_true_2 _ Hsome). now rewrite Hfalsy.
  - intros Htruthy uri Huri. rewrite (bool_decide_eq_true_2 _ Hsome).
    now rewrite Htruthy, Huri.
  - intros Hidref value_type uri Hvt Huri.
    rewrite bool_decide_eq_false_2 by (rewrite Hidref; intros [x Hx]; discriminate).
    now rewrite Hvt, Huri.
  - intros Hidref Hvt.
    rewrite bool_decide_eq_false_2 by (rewrite Hidref; intros [x Hx]; discriminate).
    now rewrite Hvt.
Qed.

Lemma datatype_extractor_spec_witness :
  datatype_extractor condition_fact typed_reference_attrs default_ns_mapping ∅
    = (Ok true,
       <["fact_dt_kind" := KKind REFERENCE]>
         (<["fact_dt_namespace_uri" := KVal (PStr "dingos.example/namespace")]>
            (<["fact_dt_name" := KVal (PStr "FileItem")]> ∅)))
  /\ datatype_extractor condition_fact leaf_attrs default_ns_mapping ∅
    = (Ok true,
       <["fact_dt_namespace_uri" := KVal (PStr "dingos.example/namespace")]>
         (<["fact_dt_name" := KVal (PStr "string")]> ∅))
  /\ datatype_extractor condition_fact ∅ default_ns_mapping ∅ = (Ok false, ∅).
Proof.
  split; [|split].
  - destruct (datatype_extractor_spec condition_fact typed_reference_attrs
                default_ns_mapping ∅) as [Href _].
    destruct Href as [_ Hmarker]; [now exists (PStr "b9ef2559")|].
    apply Hmarker; reflexivity.
  - destruct (datatype_extractor_spec condition_fact leaf_attrs
                default_ns_mapping ∅) as (_ & Hvalue & _).
    apply (Hvalue eq_refl (PStr "string")); reflexivity.
  - destruct (datatype_extractor_spec condition_fact ∅ default_ns_mapping ∅)
      as (_ & _ & Hnone).
    apply Hnone; reflexivity.
Defined.

(** C5, counterexample: with [idref] but no embedded-type marker the
    extractor returns [True] and the arguments are what they were. *)
Lemma datatype_extractor_reference_without_marker :
  is_Some (reference_attrs !! "idref")
  /\ forall add_fact_kargs,
       datatype_extractor condition_fact reference_attrs default_ns_mapping add_fact_kargs
         = (Ok true, add_fact_kargs).
Proof.
  split; [now exists (PStr "b9ef2559")|]. intros add_fact_kargs. reflexivity.
Qed.

(** What the reference handler does when both attributes are there. *)
Lemma reference_handler_eq (self : OpenIOC_Import) (store : list iobject)
    (fact_dict : fact) (attr_info : gmap string pyval)
    (add_fact_kargs : gmap string karg) (uid timestamp : pyval) :
  attr_info !! "idref" = Some uid ->
  attr_info !! "@timestamp" = Some timestamp ->
  let target := {| ident_uid := uid; ident_namespace_uri := identifier_ns_uri self |} in
  let store' := (create_placeholder store uid (identifier_ns_uri self) timestamp).1 in
  reference_handler self store fact_dict attr_info add_fact_kargs
    = (Ok true, store', <["value_iobject_id" := KIdentifier target]> add_fact_kargs)
  /\ existsb (same_identifier uid (identifier_ns_uri self)) store' = true.
Proof.
  intros Hidref Hts target store'.
  assert (Hfound : existsb (same_identifier uid (identifier_ns_uri self)) store' = true).
  { subst store'. unfold create_placeholder.
    destruct (existsb (same_revision uid (identifier_ns_uri self) timestamp) store) eqn:E;
      cbn [fst].
    - apply existsb_exists in E as (o & Hin & Ho). apply existsb_exists.
      exists o. split; [exact Hin|]. unfold same_revision in Ho. unfold same_identifier.
      apply andb_true_iff in Ho as [Ho _]. exact Ho.
    - rewrite existsb_app. apply orb_true_iff. right. cbn [existsb].
      unfold same_identifier. cbn. now rewrite !bool_decide_eq_true_2. }
  split; [|exact Hfound].
  unfold reference_handler, attr_getitem. rewrite Hidref, Hts.
  fold store'. destruct (create_placeholder store uid (identifier_ns_uri self) timestamp)
    as [st existed] eqn:Hcp. cbn [fst] in *. subst store'.
  unfold Identifier_get. now rewrite Hfound.
Qed.

(** C9: for a fact whose attributes have [idref] and [@timestamp], the
    reference handler writes into the fact-construction arguments, under
    [value_iobject_id], the identifier (namespace of the instance, uid of
    the reference) of an object that is in the store afterwards, found or
    made as a placeholder, and it returns [True]. *)
Theorem reference_handler_spec (self : OpenIOC_Import) (store : list iobject)
    (fact_dict : fact) (attr_info : gmap string pyval)
    (add_fact_kargs : gmap string karg) (uid timestamp : pyval) :
  attr_info !! "idref" = Some uid ->
  attr_info !! "@timestamp" = Some timestamp ->
  exists store' target,
    reference_handler self store fact_dict attr_info add_fact_kargs
      = (Ok true, store', <["value_iobject_id" := KIdentifier target]> add_fact_kargs)
    /\ ident_uid target = uid
    /\ ident_namespace_uri target = identifier_ns_uri self
    /\ (exists o, In o store' /\ io_uid o = ident_uid target
                  /\ io_namespace_uri o = ident_namespace_uri target)
    /\ (store' = store
        \/ store' = (store ++ [{| io_uid := uid;
                                  io_namespace_uri := identifier_ns_uri self;
                                  io_timestamp := timestamp;
                                  io_placeholder := true |}])%list).
Proof.
  intros Hidref Hts.
  destruct (reference_handler_eq self store fact_dict attr_info add_fact_kargs
              uid timestamp Hidref Hts) as [Heq Hfound].
  eexists _, _. split; [exact Heq|]. cbn [ident_uid ident_namespace_uri].
  repeat split.
  - apply existsb_exists in Hfound as (o & Hin & Ho). exists o.
    unfold same_identifier in Ho. apply andb_true_iff in Ho as [Hu Hn].
    apply bool_decide_eq_true_1 in Hu, Hn. auto.
  - unfold create_placeholder.
    destruct (existsb (same_revision uid (identifier_ns_uri self) timestamp) store);
      cbn [fst]; auto.
Qed.

Lemma reference_handler_spec_witness :
  exists store' target,
    reference_handler blank_instance [] condition_fact reference_attrs ∅
      = (Ok true, store', <["value_iobject_id" := KIdentifier target]> ∅)
    /\ ident_uid target = PStr "b9ef2559"
    /\ ident_namespace_uri target = identifier_ns_uri blank_instance
    /\ (exists o, In o store' /\ io_uid o = ident_uid target
                  /\ io_namespace_uri o = ident_namespace_uri target)
    /\ (store' = []
        \/ store' = ([] ++ [{| io_uid := PStr "b9ef2559";
                               io_namespace_uri := identifier_ns_uri blank_instance;
                               io_timestamp := PTime noon_utc;
                               io_placeholder := true |}])%list).
Proof.
  apply (reference_handler_spec blank_instance [] condition_fact reference_attrs ∅
           (PStr "b9ef2559") (PTime noon_utc)); reflexivity.
Defined.

End FactHookProps.

(** ** Identifier and revision *)

Module ExtractorProps.
Import Hooks Notions Samples.

(** C6: the extractor returns a record whose id is the value of the [id]
    attribute, [None] when the element has none; whose timestamp is [None]
    when the element has no [last-modified] attribute; and, when that
    attribute parses to a datetime, whose timestamp is the parsed value read
    in UTC if it has no timezone, and the parsed value itself if it has
    one.  Missing attributes raise no error. *)
Theorem id_and_revision_extractor_spec (H : host) (xml_elt : xml_node) :
  (attribute_of xml_elt "last-modified" = None ->
   id_and_revision_extractor H xml_elt
     = Ok {| info_id := attribute_of xml_elt "id"; info_timestamp := None |})
  /\ (forall s parsed,
        attribute_of xml_elt "last-modified" = Some s ->
        parse_datetime H s = Ok (Some parsed) ->
        (tzinfo parsed = None ->
         id_and_revision_extractor H xml_elt
           = Ok {| info_id := attribute_of xml_elt "id";
                   info_timestamp :=
                     Some {| wall_clock := wall_clock parsed; tzinfo := Some utc |} |})
        /\ (is_Some (tzinfo parsed) ->
            id_and_revision_extractor H xml_elt
              = Ok {| info_id := attribute_of xml_elt "id";
                      info_timestamp := Some parsed |})).
Proof.
  unfold id_and_revision_extractor.
  rewrite !extract_attributes_at. split.
  - intros Hnone. now rewrite Hnone.
  - intros s parsed Hsome Hparse. rewrite Hsome, Hparse. cbn [bind]. unfold is_aware.
    split.
    + intros Hnaive. now rewrite Hnaive.
    + intros [tz Htz]. now rewrite Htz.
Qed.

Lemma id_and_revision_extractor_spec_witness :
  id_and_revision_extractor (sample_host import_with_item) indicator
    = Ok {| info_id := Some "1234"; info_timestamp := None |}
  /\ id_and_revision_extractor (sample_host import_with_item) (ioc "2013-03-12T12:00:00")
    = Ok {| info_id := Some "6d2a1b03"; info_timestamp := Some noon_utc |}
  /\ id_and_revision_extractor (sample_host import_with_item)
       (ioc "2013-03-12T12:00:00+01:00")
    = Ok {| info_id := Some "6d2a1b03"; info_timestamp := Some noon_cet |}.
Proof.
  split; [|split].
  - destruct (id_and_revision_extractor_spec (sample_host import_with_item) indicator)
      as [Hnone _].
    exact (Hnone eq_refl).
  - destruct (id_and_revision_extractor_spec (sample_host import_with_item)
                (ioc "2013-03-12T12:00:00")) as [_ Hsome].
    destruct (Hsome "2013-03-12T12:00:00" noon_naive eq_refl eq_refl) as [Hnaive _].
    exact (Hnaive eq_refl).
  - destruct (id_and_revision_extractor_spec (sample_host import_with_item)
                (ioc "2013-03-12T12:00:00+01:00")) as [_ Hsome].
    destruct (Hsome "2013-03-12T12:00:00+01:00" noon_cet eq_refl eq_refl) as [_ Haware].
    apply Haware. now exists 60.
Defined.

(** A [last-modified] value that is no timestamp is not recovered from. *)
Example id_and_revision_extractor_malformed :
  id_and_revision_extractor (sample_host import_with_item) (ioc "yesterday")
    = Raise AttributeError.
Proof. reflexivity. Qed.

End ExtractorProps.

(** ** The import *)

Module ImportProps.
Import Hooks Notions Samples.

Lemma last_cons {A : Type} (l : list A) (a d : A) :
  List.last (a :: l) d = List.last l a.
Proof.
  revert a d. induction l as [|b l IH]; intros a d; [reflexivity|].
  change (List.last (a :: b :: l) d) with (List.last (b :: l) d). now rewrite !IH.
Qed.

(** After the loop over the embedded objects, [id_and_rev_info] is that of
    the last element put on the stack. *)
Lemma push_embedded_fold (embedded : list import_elt) :
  forall (info : id_and_rev_info) (stack : list import_elt),
    fold_left push_embedded embedded (info, stack)
      = (List.last (map elt_info embedded) info, (stack ++ embedded)%list).
Proof.
  induction embedded as [|e embedded IH]; intros info stack; simpl fold_left.
  - simpl. now rewrite app_nil_r.
  - unfold push_embedded at 2. cbn [fst snd]. rewrite IH.
    rewrite <- app_assoc. cbn [map]. now rewrite last_cons.
Qed.

Lemma create_all_calls (H : host) (self : OpenIOC_Import) (markings : list string)
    (identifier_ns_uri_arg : option string) (ts : datetime)
    (pending_stack : list import_elt) :
  let run := create_all H self markings identifier_ns_uri_arg ts pending_stack in
  Forall (fun c => arg_timestamp c = ts
                   /\ arg_create_timestamp c = create_timestamp self
                   /\ arg_identifier_ns_uri c = identifier_ns_uri_arg) run.1
  /\ (run.2 = Ok tt -> length run.1 = length pending_stack).
Proof.
  induction pending_stack as [|e rest IH]; simpl.
  - split; [constructor | reflexivity].
  - destruct (ns_key (dict_repr e)) as [key|x]; simpl.
    + destruct (create_all H self markings identifier_ns_uri_arg ts rest)
        as [calls outcome]; simpl in *.
      destruct IH as [Hall Hlen]. split.
      * constructor; [repeat split | exact Hall].
      * intros Hok. now rewrite (Hlen Hok).
    + split; [constructor | discriminate].
Qed.

Lemma xml_import_calls (H : host) (self : OpenIOC_Import) (now : datetime)
    (filepath xml_content : option string) (markings : option (list string))
    (identifier_ns_uri_arg : option string) :
  let run := xml_import H self now filepath xml_content markings identifier_ns_uri_arg in
  identifier_ns_uri run.1.1
    = (if str_truthy identifier_ns_uri_arg
       then default EmptyString identifier_ns_uri_arg
       else DINGOS_DEFAULT_ID_NAMESPACE_URI H)
  /\ Forall (fun c => arg_create_timestamp c = now
                      /\ arg_identifier_ns_uri c = identifier_ns_uri_arg) run.1.2
  /\ forall imported,
       MantisImporter_xml_import H filepath xml_content
         {[ None := DINGOS_NAMESPACE_URI H ]} = Ok imported ->
       Forall (fun c => arg_timestamp c = chosen_timestamp now imported) run.1.2
       /\ (run.2 = Ok tt -> length run.1.2 = S (length (embedded_objects imported))).
Proof.
  unfold xml_import.
  set (self1 := match identifier_ns_uri_arg with
                | Some uri => if str_truthy identifier_ns_uri_arg then _ else init H now
                | None => init H now
                end).
  assert (Hns : namespace_dict self1 = {[ None := DINGOS_NAMESPACE_URI H ]}).
  { subst self1. destruct identifier_ns_uri_arg as [uri|]; [|reflexivity].
    now destruct (str_truthy (Some uri)). }
  assert (Hct : create_timestamp self1 = now).
  { subst self1. destruct identifier_ns_uri_arg as [uri|]; [|reflexivity].
    now destruct (str_truthy (Some uri)). }
  assert (Hid : identifier_ns_uri self1
                = if str_truthy identifier_ns_uri_arg
                  then default EmptyString identifier_ns_uri_arg
                  else DINGOS_DEFAULT_ID_NAMESPACE_URI H).
  { subst self1. destruct identifier_ns_uri_arg as [uri|]; [|reflexivity].
    now destruct (str_truthy (Some uri)). }
  clearbody self1. rewrite Hns.
  destruct (MantisImporter_xml_import H filepath xml_content
              {[ None := DINGOS_NAMESPACE_URI H ]}) as [imported|e]; cbn [fst snd].
  2: { split; [exact Hid|]. split; [apply List.Forall_nil | discriminate]. }
  destruct (ns_key (dict_repr (toplevel imported))) as [key|e]; cbn [fst snd].
  2: { split; [exact Hid|]. split; [apply List.Forall_nil|].
       intros imported' Himp. split; [apply List.Forall_nil | discriminate]. }
  set (self2 := match search_by_re_list H _ with
                | Some (family, revision) => _
                | None => self1
                end).
  assert (Hct2 : create_timestamp self2 = now).
  { subst self2. destruct (search_by_re_list H _) as [[family revision]|]; auto. }
  assert (Hid2 : identifier_ns_uri self2 = identifier_ns_uri self1).
  { subst self2. destruct (search_by_re_list H _) as [[family revision]|]; auto. }
  clearbody self2. rewrite push_embedded_fold. rewrite Hct2.
  match goal with |- context [create_all H self2 ?m ?i ?ts ?p] =>
    pose proof (create_all_calls H self2 m i ts p) as Hcalls;
    destruct (create_all H self2 m i ts p) as [calls outcome]
  end.
  cbn [fst snd] in *. destruct Hcalls as [Hall Hlen].
  split; [now rewrite Hid2|]. split.
  - eapply List.Forall_impl; [|exact Hall]. intros c (_ & Hc & Hi). now rewrite Hc, Hct2.
  - intros imported' Himp. injection Himp as <-. split.
    + eapply List.Forall_impl; [|exact Hall]. intros c (Hts & _). exact Hts.
    + intros Hok. rewrite (Hlen Hok). reflexivity.
Qed.

(** C2 (as amended): all the records one call of [xml_import] creates get
    one and the same timestamp, and one and the same creation timestamp,
    the time of the call; there is one record for the top-level element and
    one for each embedded element when the call runs to its end; and when
    nothing is embedded the shared timestamp is the one extracted from the
    imported element if there is one, and the time of the call otherwise
    (not the later of the two). *)
Theorem xml_import_shared_timestamp (H : host) (self : OpenIOC_Import)
    (now : datetime) (filepath xml_content : option string)
    (markings : option (list string)) (identifier_ns_uri_arg : option string)
    (imported : import_result) :
  MantisImporter_xml_import H filepath xml_content
    {[ None := DINGOS_NAMESPACE_URI H ]} = Ok imported ->
  let run := xml_import H self now filepath xml_content markings identifier_ns_uri_arg in
  (exists ts,
     Forall (fun c => arg_timestamp c = ts) run.1.2
     /\ (embedded_objects imported = [] ->
         ts = default now (info_timestamp (elt_info (toplevel imported)))))
  /\ Forall (fun c => arg_create_timestamp c = now) run.1.2
  /\ (run.2 = Ok tt -> length run.1.2 = S (length (embedded_objects imported))).
Proof.
  intros Himp run.
  destruct (xml_import_calls H self now filepath xml_content markings
              identifier_ns_uri_arg) as (_ & Hcreate & Hts).
  destruct (Hts imported Himp) as [Hshared Hlen].
  split; [|split].
  - exists (chosen_timestamp now imported). split; [exact Hshared|].
    intros Hnone. unfold chosen_timestamp. now rewrite Hnone.
  - eapply List.Forall_impl; [|exact Hcreate]. now intros c [Hc _].
  - exact Hlen.
Qed.

Lemma xml_import_shared_timestamp_witness :
  let run := xml_import (sample_host import_with_item) blank_instance evening_utc
               None None None None in
  (exists ts,
     Forall (fun c => arg_timestamp c = ts) run.1.2
     /\ (embedded_objects import_with_item = [] ->
         ts = default evening_utc (info_timestamp (elt_info (toplevel import_with_item)))))
  /\ Forall (fun c => arg_create_timestamp c = evening_utc) run.1.2
  /\ (run.2 = Ok tt -> length run.1.2 = S (length (embedded_objects import_with_item))).
Proof.
  apply (xml_import_shared_timestamp (sample_host import_with_item) blank_instance
           evening_utc None None None None import_with_item).
  reflexivity.
Defined.

Example xml_import_two_records :
  let run := xml_import (sample_host import_with_item) blank_instance evening_utc
               None None None None in
  run.2 = Ok tt
  /\ map arg_iobject_type_name run.1.2 = ["ioc"; "FileItem"]
  /\ map arg_timestamp run.1.2 = [evening_utc; evening_utc].
Proof. repeat split. Qed.

(** C2, counterexample: the imported element was last modified at noon and
    the import runs in the evening; the record gets the timestamp of noon,
    which is not the later of the two. *)
Lemma xml_import_keeps_extracted_timestamp :
  let run := xml_import (sample_host import_without_items) blank_instance evening_utc
               None None None None in
  info_timestamp (elt_info (toplevel import_without_items)) = Some noon_utc
  /\ latest noon_utc evening_utc = evening_utc
  /\ map arg_timestamp run.1.2 = [noon_utc]
  /\ ~ Forall (fun c => arg_timestamp c = latest noon_utc evening_utc) run.1.2.
Proof.
  cbv zeta. split; [reflexivity|]. split; [reflexivity|]. split; [reflexivity|].
  intros Hall. apply (Forall_map arg_timestamp (fun t => t = latest noon_utc evening_utc))
    in Hall.
  change (Forall (fun t => t = latest noon_utc evening_utc) [noon_utc]) in Hall.
  inversion Hall as [|t l Ht _]. discriminate Ht.
Qed.

(** C10: when [xml_import] is called without an identifier namespace, every
    record it creates is created with [None] for the identifier namespace,
    whereas the instance, and with it the reference handler, works with the
    default namespace of dingos: the handler resolves and creates the
    referenced objects under that namespace, which is not the one given to
    the creation of the imported objects. *)
Theorem xml_import_namespace_mismatch (H : host) (self : OpenIOC_Import)
    (now : datetime) (filepath xml_content : option string)
    (markings : option (list string)) :
  let run := xml_import H self now filepath xml_content markings None in
  let self' := run.1.1 in
  Forall (fun c => arg_identifier_ns_uri c = None) run.1.2
  /\ identifier_ns_uri self' = DINGOS_DEFAULT_ID_NAMESPACE_URI H
  /\ (forall store fact_dict attr_info add_fact_kargs uid timestamp,
        attr_info !! "idref" = Some uid ->
        attr_info !! "@timestamp" = Some timestamp ->
        exists store',
          reference_handler self' store fact_dict attr_info add_fact_kargs
            = (Ok true, store',
               <["value_iobject_id" :=
                   KIdentifier {| ident_uid := uid;
                                  ident_namespace_uri :=
                                    DINGOS_DEFAULT_ID_NAMESPACE_URI H |}]> add_fact_kargs)
          /\ exists o, In o store' /\ io_uid o = uid
                       /\ io_namespace_uri o = DINGOS_DEFAULT_ID_NAMESPACE_URI H)
  /\ Forall (fun c => arg_identifier_ns_uri c <> Some (identifier_ns_uri self')) run.1.2.
Proof.
  intros run self'.
  destruct (xml_import_calls H self now filepath xml_content markings None)
    as (Hid & Hcreate & _).
  fold run in Hid, Hcreate. fold self' in Hid. cbn [str_truthy] in Hid.
  split; [|split; [exact Hid|split]].
  - eapply List.Forall_impl; [|exact Hcreate]. now intros c [_ Hc].
  - intros store fact_dict attr_info add_fact_kargs uid timestamp Hidref Hts.
    destruct (FactHookProps.reference_handler_eq self' store fact_dict attr_info
                add_fact_kargs uid timestamp Hidref Hts) as [Heq Hfound].
    rewrite Hid in Heq, Hfound. eexists. split; [exact Heq|].
    apply existsb_exists in Hfound as (o & Hin & Ho). exists o.
    unfold same_identifier in Ho. apply andb_true_iff in Ho as [Hu Hn].
    apply bool_decide_eq_true_1 in Hu, Hn. auto.
  - eapply List.Forall_impl; [|exact Hcreate]. intros c [_ Hc]. rewrite Hc. discriminate.
Qed.

Lemma xml_import_namespace_mismatch_witness :
  let run := xml_import (sample_host import_with_item) blank_instance evening_utc
               None None None None in
  map arg_identifier_ns_uri run.1.2 = [None; None]
  /\ Forall (fun c => arg_identifier_ns_uri c = None) run.1.2
  /\ identifier_ns_uri run.1.1 = "dingos.example/default-ids"
  /\ exists store',
       reference_handler run.1.1 [] condition_fact reference_attrs ∅
         = (Ok true, store',
            <["value_iobject_id" :=
                KIdentifier {| ident_uid := PStr "b9ef2559";
                               ident_namespace_uri := "dingos.example/default-ids" |}]> ∅).
Proof.
  intros run.
  destruct (xml_import_namespace_mismatch (sample_host import_with_item) blank_instance
              evening_utc None None None) as (Hnone & Hdefault & Hhandler & _).
  split; [reflexivity|]. split; [exact Hnone|]. split; [exact Hdefault|].
  destruct (Hhandler [] condition_fact reference_attrs ∅ (PStr "b9ef2559")
              (PTime noon_utc) eq_refl eq_refl) as (store' & Heq & _).
  exists store'. exact Heq.
Defined.

End ImportProps.

(** * Further properties of the hooks *)

(** ** The record the transformer builds *)

Module TransformerShape.
Import Transformer Notions Samples.

Lemma nest_cons (k : string) (ks : list string) (leaf : value) :
  nest (k :: ks) leaf = VDict (path_dict (k :: ks) leaf).
Proof. reflexivity. Qed.

Lemma set_dict_empty (keys : list string) (leaf : value) :
  keys <> [] -> set_dict [] leaf keys = Ok (path_dict keys leaf).
Proof.
  induction keys as [|k ks IH]; intros Hne; [congruence|].
  destruct ks as [|k' ks]; [reflexivity|].
  change (set_dict [] leaf (k :: k' :: ks)) with
    (let? d'' := set_dict [] leaf (k' :: ks) in Ok (dict_set [] k (VDict d''))).
  rewrite IH by discriminate. reflexivity.
Qed.

Lemma set_dict_beside_id (i leaf : value) (B : string) (ks : list string) :
  B <> "@id" ->
  set_dict [("@id", i)] leaf (B :: ks) = Ok [("@id", i); (B, nest ks leaf)].
Proof.
  intros HB.
  assert (E : String.eqb "@id" B = false).
  { apply String.eqb_neq. congruence. }
  destruct ks as [|k ks].
  - cbn [set_dict dict_set]. now rewrite E.
  - change (set_dict [("@id", i)] leaf (B :: k :: ks)) with
      (match dict_get [("@id", i)] B with
       | Some (VDict d') =>
           let? d'' := set_dict d' leaf (k :: ks) in
           Ok (dict_set [("@id", i)] B (VDict d''))
       | Some _ => Raise TypeError
       | None =>
           let? d'' := set_dict [] leaf (k :: ks) in
           Ok (dict_set [("@id", i)] B (VDict d''))
       end).
    cbn [dict_get]. rewrite E. rewrite set_dict_empty by discriminate.
    cbn [bind dict_set]. now rewrite E.
Qed.

(** The transformer on an item whose path does not begin with the id key. *)
Lemma transformer_builds_record (contents context content : DingoObjDict)
    (s A rest B : string) (ks : list string) (v t c i : value) :
  dict_get contents "Context" = Some (VDict context) ->
  dict_get context "@search" = Some (VStr s) ->
  dict_get contents "Content" = Some (VDict content) ->
  dict_get content "_value" = Some v ->
  dict_get content "@type" = Some t ->
  dict_get contents "@condition" = Some c ->
  dict_get contents "@id" = Some i ->
  split1 slash s = [A; rest] ->
  split slash rest = B :: ks ->
  B <> "@id" ->
  transformer "IndicatorItem" contents
    = Ok (A, [("@id", i); (B, nest ks (leaf_record t c v))]).
Proof.
  intros Hcx Hs Hct Hv Ht Hc Hi Hcut Hsegs HB.
  rewrite (TransformerProps.transformer_item_eq _ _ _ _ _ _ _ _ Hcx Hs Hct Hv Ht Hc Hi).
  rewrite Hcut. cbn [unpack2 bind fst snd]. rewrite Hsegs.
  rewrite set_dict_beside_id by exact HB. reflexivity.
Qed.

(** X1: the rewritten record holds the id and the nested path and nothing
    else: for a search path cut at its first [/] into [A] and the rest, the
    rest being the segments [B], [ks] with [B] not ["@id"], the transformer
    returns [A] and the record [{"@id": i, B: {.. {leaf} ..}}]. *)
Theorem transformer_record_shape (contents context content : DingoObjDict)
    (s A rest B : string) (ks : list string) (v t c i : value) :
  dict_get contents "Context" = Some (VDict context) ->
  dict_get context "@search" = Some (VStr s) ->
  dict_get contents "Content" = Some (VDict content) ->
  dict_get content "_value" = Some v ->
  dict_get content "@type" = Some t ->
  dict_get contents "@condition" = Some c ->
  dict_get contents "@id" = Some i ->
  split1 slash s = [A; rest] ->
  split slash rest = B :: ks ->
  B <> "@id" ->
  transformer "IndicatorItem" contents
    = Ok (A, [("@id", i); (B, nest ks (leaf_record t c v))]).
Proof.
  intros Hcx Hs Hct Hv Ht Hc Hi Hcut Hsegs HB.
  now apply (transformer_builds_record contents context content s A rest B ks).
Qed.

Lemma transformer_record_shape_witness :
  transformer "IndicatorItem" stub_item
    = Ok ("FileItem",
          [("@id", VStr "b9ef2559-cc59-4463-81d9-52800545e16e");
           ("PEInfo", nest ["Sections"; "Section"; "Name"]
                        (leaf_record (VStr "string") (VStr "contains") (VStr ".stub")))]).
Proof.
  apply (transformer_record_shape stub_item
           [("@document", VStr "FileItem");
            ("@search", VStr "FileItem/PEInfo/Sections/Section/Name");
            ("@type", VStr "mir")]
           [("@type", VStr "string"); ("_value", VStr ".stub")]
           "FileItem/PEInfo/Sections/Section/Name" "FileItem"
           "PEInfo/Sections/Section/Name");
    try reflexivity.
  discriminate.
Defined.

Lemma join_cons_char (sep c : ascii) (w : string) (ws : list string) :
  join sep (String c w :: ws) = String c (join sep (w :: ws)).
Proof. destruct ws; reflexivity. Qed.

(** Joining what [split] gives is the string that was split. *)
Lemma join_split (sep : ascii) (s : string) : join sep (split sep s) = s.
Proof.
  induction s as [|c s IH]; [reflexivity|].
  cbn [split]. destruct (Ascii.eqb c sep) eqn:E.
  - apply Ascii.eqb_eq in E. subst c.
    destruct (split sep s) as [|w ws] eqn:Hsp; [now apply split_nonempty in Hsp|].
    change (join sep (EmptyString :: w :: ws))
      with (EmptyString +:+ String sep (join sep (w :: ws))).
    now rewrite IH.
  - destruct (split sep s) as [|w ws] eqn:Hsp; [now apply split_nonempty in Hsp|].
    rewrite join_cons_char. now rewrite IH.
Qed.

Lemma split1_cut (sep : ascii) (s a rest : string) :
  split1 sep s = [a; rest] -> s = a +:+ String sep rest.
Proof.
  revert a. induction s as [|c s IH]; intros a; [discriminate|].
  cbn [split1]. destruct (Ascii.eqb c sep) eqn:E.
  - apply Ascii.eqb_eq in E. subst c. intros Heq. now injection Heq as <- <-.
  - destruct (split1 sep s) as [|w ws] eqn:Hsp; [discriminate|].
    intros Heq. injection Heq as <- ->. rewrite append_cons. f_equal. now apply IH.
Qed.

(** X2: nothing of the search path is lost: the element name the
    transformer returns and the segments under which it stores the leaf,
    joined by [/], are the search path again (empty segments of a path such
    as [A//B] or [A/B/] included). *)
Theorem transformer_path_round_trip (contents context content : DingoObjDict)
    (s A rest : string) (v t c i : value) :
  dict_get contents "Context" = Some (VDict context) ->
  dict_get context "@search" = Some (VStr s) ->
  dict_get contents "Content" = Some (VDict content) ->
  dict_get content "_value" = Some v ->
  dict_get content "@type" = Some t ->
  dict_get contents "@condition" = Some c ->
  dict_get contents "@id" = Some i ->
  split1 slash s = [A; rest] ->
  hd EmptyString (split slash rest) <> "@id" ->
  exists segs record,
    transformer "IndicatorItem" contents = Ok (A, record)
    /\ chained_get (VDict record) segs = Some (leaf_record t c v)
    /\ join slash (A :: segs) = s.
Proof.
  intros Hcx Hs Hct Hv Ht Hc Hi Hcut Hhd.
  destruct (split slash rest) as [|B ks] eqn:Hsegs; [now apply split_nonempty in Hsegs|].
  cbn [hd] in Hhd.
  exists (B :: ks), [("@id", i); (B, nest ks (leaf_record t c v))].
  split; [|split].
  - exact (transformer_builds_record _ _ _ _ _ _ _ _ _ _ _ _
             Hcx Hs Hct Hv Ht Hc Hi Hcut Hsegs Hhd).
  - cbn [chained_get dict_get].
    destruct (String.eqb "@id" B) eqn:E; [apply String.eqb_eq in E; congruence|].
    rewrite String.eqb_refl. clear. induction ks as [|k ks IH]; [reflexivity|].
    cbn [nest fold_right chained_get dict_get]. rewrite String.eqb_refl. exact IH.
  - change (join slash (A :: B :: ks)) with (A +:+ String slash (join slash (B :: ks))).
    rewrite <- Hsegs, join_split. symmetry. now apply split1_cut.
Qed.

Lemma transformer_path_round_trip_witness :
  exists segs record,
    transformer "IndicatorItem" stub_item = Ok ("FileItem", record)
    /\ chained_get (VDict record) segs
       = Some (leaf_record (VStr "string") (VStr "contains") (VStr ".stub"))
    /\ join slash ("FileItem" :: segs) = "FileItem/PEInfo/Sections/Section/Name".
Proof.
  apply (transformer_path_round_trip stub_item
           [("@document", VStr "FileItem");
            ("@search", VStr "FileItem/PEInfo/Sections/Section/Name");
            ("@type", VStr "mir")]
           [("@type", VStr "string"); ("_value", VStr ".stub")]
           "FileItem/PEInfo/Sections/Section/Name" "FileItem"
           "PEInfo/Sections/Section/Name" (VStr ".stub") (VStr "string")
           (VStr "contains") (VStr "b9ef2559-cc59-4463-81d9-52800545e16e"));
    try reflexivity.
  discriminate.
Defined.

End TransformerShape.

(** ** The transformer on paths and contents out of the ordinary *)

Module TransformerEdges.
Import Transformer Notions Samples.

(** X3: a search path without [/] cannot be unpacked into document type and
    path: the transformer raises a [ValueError], whatever else the item
    holds. *)
Theorem transformer_no_slash (contents context : DingoObjDict) (s : string) :
  dict_get contents "Context" = Some (VDict context) ->
  dict_get context "@search" = Some (VStr s) ->
  char_in slash s = false ->
  transformer "IndicatorItem" contents = Raise ValueError.
Proof.
  intros Hcx Hs Hno. unfold transformer, getitem. simpl negb. cbv iota.
  rewrite Hcx. cbn [bind]. rewrite Hs. cbn [bind method_split1].
  rewrite (split1_no_sep slash s Hno). reflexivity.
Qed.

Lemma transformer_no_slash_witness :
  transformer "IndicatorItem" no_content_item = Raise ValueError.
Proof.
  apply (transformer_no_slash no_content_item
           [("@document", VStr "FileItem"); ("@search", VStr "FileItem");
            ("@type", VStr "mir")] "FileItem"); reflexivity.
Defined.

(** X4: a path that begins with the key of the id, after the document type.
    When it goes on, the walk runs into the id, and for an id that is a
    string or a list the transformer raises a [TypeError]; when it ends
    there, the leaf takes the place of the id in the record. *)
Theorem transformer_id_segment (contents context content : DingoObjDict)
    (s A rest : string) (v t c i : value) :
  dict_get contents "Context" = Some (VDict context) ->
  dict_get context "@search" = Some (VStr s) ->
  dict_get contents "Content" = Some (VDict content) ->
  dict_get content "_value" = Some v ->
  dict_get content "@type" = Some t ->
  dict_get contents "@condition" = Some c ->
  dict_get contents "@id" = Some i ->
  split1 slash s = [A; rest] ->
  (forall k ks,
     split slash rest = "@id" :: k :: ks ->
     (forall d, i <> VDict d) ->
     transformer "IndicatorItem" contents = Raise TypeError)
  /\ (split slash rest = ["@id"] ->
      transformer "IndicatorItem" contents = Ok (A, [("@id", leaf_record t c v)])).
Proof.
  intros Hcx Hs Hct Hv Ht Hc Hi Hcut.
  rewrite (TransformerProps.transformer_item_eq _ _ _ _ _ _ _ _ Hcx Hs Hct Hv Ht Hc Hi).
  rewrite Hcut. cbn [unpack2 bind fst snd]. split.
  - intros k ks Hsegs Hnodict. rewrite Hsegs.
    change (set_dict [("@id", i)] (leaf_record t c v) ("@id" :: k :: ks)) with
      (match Some i with
       | Some (VDict d') =>
           let? d'' := set_dict d' (leaf_record t c v) (k :: ks) in
           Ok (dict_set [("@id", i)] "@id" (VDict d''))
       | Some _ => Raise TypeError
       | None =>
           let? d'' := set_dict [] (leaf_record t c v) (k :: ks) in
           Ok (dict_set [("@id", i)] "@id" (VDict d''))
       end).
    destruct i as [x|l|d]; [reflexivity | reflexivity |].
    now destruct (Hnodict d).
  - intros Hsegs. rewrite Hsegs. reflexivity.
Qed.

Lemma transformer_id_segment_witness :
  transformer "IndicatorItem" id_path_item = Raise TypeError
  /\ transformer "IndicatorItem" id_leaf_item
     = Ok ("FileItem", [("@id", leaf_record (VStr "string") (VStr "is") (VStr "Y"))]).
Proof.
  split.
  - destruct (transformer_id_segment id_path_item
                [("@document", VStr "FileItem");
                 ("@search", VStr "FileItem/@id/Section/Name");
                 ("@type", VStr "mir")]
                [("@type", VStr "string"); ("_value", VStr ".stub")]
                "FileItem/@id/Section/Name" "FileItem" "@id/Section/Name"
                (VStr ".stub") (VStr "string") (VStr "contains") (VStr "X")
                eq_refl eq_refl eq_refl eq_refl eq_refl eq_refl eq_refl eq_refl)
      as [Hlong _].
    apply (Hlong "Section" ["Name"]); [reflexivity | discriminate].
  - destruct (transformer_id_segment id_leaf_item
                [("@search", VStr "FileItem/@id")]
                [("@type", VStr "string"); ("_value", VStr "Y")]
                "FileItem/@id" "FileItem" "@id"
                (VStr "Y") (VStr "string") (VStr "is") (VStr "X")
                eq_refl eq_refl eq_refl eq_refl eq_refl eq_refl eq_refl eq_refl)
      as [_ Hshort].
    now apply Hshort.
Defined.

(** X5: the transformer reads four keys of an item and nothing else: two
    items with the same [Context], [Content], [@condition] and [@id] give
    the same outcome, in whatever order their keys stand and whatever else
    they hold. *)
Theorem transformer_reads_four_keys (contents contents' : DingoObjDict) :
  dict_get contents "Context" = dict_get contents' "Context" ->
  dict_get contents "Content" = dict_get contents' "Content" ->
  dict_get contents "@condition" = dict_get contents' "@condition" ->
  dict_get contents "@id" = dict_get contents' "@id" ->
  transformer "IndicatorItem" contents = transformer "IndicatorItem" contents'.
Proof.
  intros Hcx Hct Hc Hi. unfold transformer, getitem.
  now rewrite Hcx, Hct, Hc, Hi.
Qed.

Lemma transformer_reads_four_keys_witness :
  transformer "IndicatorItem" stub_item = transformer "IndicatorItem" stub_item'.
Proof.
  apply (transformer_reads_four_keys stub_item stub_item'); reflexivity.
Defined.

(** X6: the [KeyError] names the first key that is missing, in the order in
    which the transformer reads: [Context], its [@search], [Content], its
    [_value], its [@type], then [@condition] and [@id] of the item. *)
Theorem transformer_first_missing_key (contents : DingoObjDict) :
  (dict_get contents "Context" = None ->
   transformer "IndicatorItem" contents = Raise (KeyError "Context"))
  /\ (forall context,
        dict_get contents "Context" = Some (VDict context) ->
        (dict_get context "@search" = None ->
         transformer "IndicatorItem" contents = Raise (KeyError "@search"))
        /\ forall s A rest,
             dict_get context "@search" = Some (VStr s) ->
             split1 slash s = [A; rest] ->
             (dict_get contents "Content" = None ->
              transformer "IndicatorItem" contents = Raise (KeyError "Content"))
             /\ forall content,
                  dict_get contents "Content" = Some (VDict content) ->
                  (dict_get content "_value" = None ->
                   transformer "IndicatorItem" contents = Raise (KeyError "_value"))
                  /\ (is_Some (dict_get content "_value") ->
                      dict_get content "@type" = None ->
                      transformer "IndicatorItem" contents = Raise (KeyError "@type"))
                  /\ (is_Some (dict_get content "_value") ->
                      is_Some (dict_get content "@type") ->
                      dict_get contents "@condition" = None ->
                      transformer "IndicatorItem" contents
                        = Raise (KeyError "@condition"))
                  /\ (is_Some (dict_get content "_value") ->
                      is_Some (dict_get content "@type") ->
                      is_Some (dict_get contents "@condition") ->
                      dict_get contents "@id" = None ->
                      transformer "IndicatorItem" contents = Raise (KeyError "@id"))).
Proof.
  unfold transformer, getitem. simpl negb. cbv iota. split.
  - intros Hcx. now rewrite Hcx.
  - intros context Hcx. rewrite Hcx. cbn [bind]. split.
    + intros Hs. now rewrite Hs.
    + intros s A rest Hs Hcut. rewrite Hs. cbn [bind method_split1].
      rewrite Hcut. cbn [unpack2 bind]. split.
      * intros Hct. now rewrite Hct.
      * intros content Hct. rewrite Hct. cbn [bind]. split; [|split; [|split]].
        -- intros Hv. now rewrite Hv.
        -- intros [v Hv] Ht. rewrite Hv. cbn [bind]. now rewrite Ht.
        -- intros [v Hv] [t Ht] Hc. rewrite Hv, Ht. cbn [bind]. now rewrite Hc.
        -- intros [v Hv] [t Ht] [c Hc] Hi. rewrite Hv, Ht, Hc. cbn [bind].
           now rewrite Hi.
Qed.

Lemma transformer_first_missing_key_witness :
  transformer "IndicatorItem" no_content_item' = Raise (KeyError "Content")
  /\ transformer "IndicatorItem" [] = Raise (KeyError "Context").
Proof.
  split.
  - destruct (transformer_first_missing_key no_content_item') as [_ Hcx].
    destruct (Hcx [("@document", VStr "FileItem"); ("@search", VStr "FileItem/Md5sum");
                   ("@type", VStr "mir")] eq_refl) as [_ Hs].
    destruct (Hs "FileItem/Md5sum" "FileItem" "Md5sum" eq_refl eq_refl) as [Hct _].
    now apply Hct.
  - destruct (transformer_first_missing_key []) as [Hcx _]. now apply Hcx.
Defined.

End TransformerEdges.

(** ** The embedding predicate and the extractor at their edges *)

Module ElementHookEdges.
Import Hooks Notions Samples.

Lemma scan_context_stops (before after : list xml_node) (context : xml_node)
    (type_info : option string) :
  Forall (fun g => node_name g <> "Context") before ->
  node_name context = "Context" ->
  scan_context (before ++ context :: after)%list type_info
    = match attribute_of context "document" with
      | Some document => Some document
      | None => type_info
      end.
Proof.
  intros Hbefore Hname. induction Hbefore as [|g before Hg _ IH]; cbn [app scan_context].
  - rewrite Hname, String.eqb_refl. now rewrite extract_attributes_plain.
  - destruct (String.eqb (node_name g) "Context") eqn:E; [|exact IH].
    apply String.eqb_eq in E. contradiction.
Qed.

(** X7: what stands after the first [Context] child has no part in the
    classification: a later [Context] child is not looked at, not even when
    the first one has no [document] attribute; nor have the parent and the
    namespace mapping. *)
Theorem embedding_first_context_only (name : string) (properties : list xml_attr)
    (before after after' : list xml_node) (context parent parent' : xml_node)
    (ns_mapping ns_mapping' : gmap (option string) string) :
  Forall (fun g => node_name g <> "Context") before ->
  node_name context = "Context" ->
  cybox_embedding_pred parent
    (XmlNode name properties (before ++ context :: after)%list) ns_mapping
  = cybox_embedding_pred parent'
      (XmlNode name properties (before ++ context :: after')%list) ns_mapping'.
Proof.
  intros Hbefore Hname. unfold cybox_embedding_pred. cbn [node_children node_name].
  rewrite !(scan_context_stops before _ context None Hbefore Hname).
  reflexivity.
Qed.

Lemma embedding_first_context_only_witness :
  cybox_embedding_pred indicator two_context_item default_ns_mapping = EBool true
  /\ cybox_embedding_pred indicator two_context_item default_ns_mapping
     = cybox_embedding_pred (ioc "2013-03-12T12:00:00")
         (XmlNode "IndicatorItem" [plain_attr "id" "b9ef2559"]
            [XmlNode "text" [] [];
             XmlNode "Context" [plain_attr "search" "FileItem/Md5sum"] []]) ∅.
Proof.
  split; [reflexivity|].
  apply (embedding_first_context_only "IndicatorItem" [plain_attr "id" "b9ef2559"]
           [XmlNode "text" [] []]
           [XmlNode "Context" [plain_attr "document" "FileItem"] []] []
           (XmlNode "Context" [plain_attr "search" "FileItem/Md5sum"] [])).
  - repeat constructor. discriminate.
  - reflexivity.
Defined.

(** X8: the outcome of the classifier is false for the importer exactly
    when the child is no candidate: it is [False] if and only if the child
    is not an [IndicatorItem] with an [id], and a type name it returns is
    never the empty string. *)
Theorem embedding_false_iff (parent child : xml_node)
    (ns_mapping : gmap (option string) string) :
  (cybox_embedding_pred parent child ns_mapping = EBool false
   <-> ~ (node_name child = "IndicatorItem" /\ is_Some (attribute_of child "id")))
  /\ cybox_embedding_pred parent child ns_mapping <> EType EmptyString.
Proof.
  unfold cybox_embedding_pred. rewrite extract_attributes_plain.
  destruct (String.eqb (node_name child) "IndicatorItem") eqn:Hname.
  - apply String.eqb_eq in Hname. case_bool_decide as Hid; cbn [andb].
    + assert (Hres : forall o : option string,
                match o with
                | Some t => if negb (String.eqb t EmptyString) then EType t else EBool true
                | None => EBool true
                end <> EBool false
                /\ match o with
                   | Some t => if negb (String.eqb t EmptyString) then EType t else EBool true
                   | None => EBool true
                   end <> EType EmptyString).
      { intros [t|]; [|split; discriminate].
        destruct (String.eqb t EmptyString) eqn:Et; cbn [negb]; [split; discriminate|].
        split; [discriminate|]. intros Heq. injection Heq as ->. discriminate. }
      destruct (Hres (scan_context (node_children child) None)) as [Hnf Hne].
      split; [|exact Hne]. split; [intros Heq; contradiction | intros Hno].
      exfalso. apply Hno. auto.
    + split; [|discriminate]. split; [|reflexivity]. intros _ [_ Hsome]. contradiction.
  - rewrite andb_false_r. split; [|discriminate]. split; [|reflexivity].
    intros _ [Heq _]. rewrite Heq in Hname. discriminate.
Qed.

Lemma embedding_false_iff_witness :
  cybox_embedding_pred indicator (indicator_item "FileItem") default_ns_mapping
    <> EBool false.
Proof.
  destruct (embedding_false_iff indicator (indicator_item "FileItem") default_ns_mapping)
    as [[Hfalse _] _].
  intros Heq. apply (Hfalse Heq). split; [reflexivity | now exists "b9ef2559"].
Defined.

(** X9: a [last-modified] attribute that cannot be read as a timestamp is
    not recovered from: when the parser knows no timestamp in it the
    extractor raises an [AttributeError], and what the parser raises the
    extractor raises. *)
Theorem extractor_unreadable_timestamp (H : host) (xml_elt : xml_node) (s : string) :
  attribute_of xml_elt "last-modified" = Some s ->
  (parse_datetime H s = Ok None ->
   id_and_revision_extractor H xml_elt = Raise AttributeError)
  /\ (forall e, parse_datetime H s = Raise e ->
                id_and_revision_extractor H xml_elt = Raise e).
Proof.
  intros Hattr. unfold id_and_revision_extractor. rewrite !extract_attributes_at, Hattr.
  split.
  - intros Hparse. now rewrite Hparse.
  - intros e Hparse. now rewrite Hparse.
Qed.

Lemma extractor_unreadable_timestamp_witness :
  id_and_revision_extractor (sample_host import_with_item) (ioc "yesterday")
    = Raise AttributeError
  /\ id_and_revision_extractor (sample_host import_with_item) (ioc "2013-13-12T12:00:00")
    = Raise ValueError.
Proof.
  split.
  - destruct (extractor_unreadable_timestamp (sample_host import_with_item)
                (ioc "yesterday") "yesterday" eq_refl) as [Hnone _].
    now apply Hnone.
  - destruct (extractor_unreadable_timestamp (sample_host import_with_item)
                (ioc "2013-13-12T12:00:00") "2013-13-12T12:00:00" eq_refl) as [_ Hraise].
    now apply Hraise.
Defined.

(** X10: a timestamp the extractor returns is always aware, its date and
    time are those the parser read, and its offset is the parsed one or UTC;
    and the extractor returns no timestamp only for an element without
    [last-modified]. *)
Theorem extractor_timestamp_aware (H : host) (xml_elt : xml_node)
    (info : id_and_rev_info) :
  id_and_revision_extractor H xml_elt = Ok info ->
  (forall ts,
     info_timestamp info = Some ts ->
     exists s parsed,
       attribute_of xml_elt "last-modified" = Some s
       /\ parse_datetime H s = Ok (Some parsed)
       /\ wall_clock ts = wall_clock parsed
       /\ tzinfo ts = Some (default utc (tzinfo parsed)))
  /\ (info_timestamp info = None <-> attribute_of xml_elt "last-modified" = None).
Proof.
  unfold id_and_revision_extractor. rewrite !extract_attributes_at.
  destruct (attribute_of xml_elt "last-modified") as [s|].
  - destruct (parse_datetime H s) as [[parsed|]|e] eqn:Hparse; cbn [bind];
      try discriminate.
    intros Heq. injection Heq as <-. cbn [info_timestamp]. split.
    + intros ts Hts. injection Hts as <-. exists s, parsed.
      repeat split; unfold is_aware; destruct (tzinfo parsed) eqn:Htz;
        cbn [negb make_aware wall_clock tzinfo default]; auto.
    + split; discriminate.
  - intros Heq. injection Heq as <-. cbn [info_timestamp]. split; [discriminate|].
    split; reflexivity.
Qed.

Lemma extractor_timestamp_aware_witness :
  (forall ts,
     Some noon_utc = Some ts ->
     exists s parsed,
       attribute_of (ioc "2013-03-12T12:00:00") "last-modified" = Some s
       /\ parse_datetime (sample_host import_with_item) s = Ok (Some parsed)
       /\ wall_clock ts = wall_clock parsed
       /\ tzinfo ts = Some (default utc (tzinfo parsed)))
  /\ (Some noon_utc = None
      <-> attribute_of (ioc "2013-03-12T12:00:00") "last-modified" = None).
Proof.
  apply (extractor_timestamp_aware (sample_host import_with_item)
           (ioc "2013-03-12T12:00:00")
           {| info_id := Some "6d2a1b03"; info_timestamp := Some noon_utc |}).
  reflexivity.
Defined.

End ElementHookEdges.

(** ** The hooks on facts at their edges *)

Module FactHookEdges.
Import Hooks Notions Samples.

(** X11: the suppression predicate answers for every attribute that is a
    string and fails, with a [TypeError], exactly for a fact that is not for
    an attribute (whose [attribute] is [False]). *)
Theorem attr_ignore_predicate_raises_iff (fact_dict : fact) :
  (attribute fact_dict = None <-> attr_ignore_predicate fact_dict = Raise TypeError)
  /\ (is_Some (attribute fact_dict) <-> exists b, attr_ignore_predicate fact_dict = Ok b).
Proof.
  unfold attr_ignore_predicate. destruct (attribute fact_dict) as [a|].
  - assert (Hret : exists b,
               (if char_in "@"%char a then Ok true
                else if bool_decide (a ∈ ["idref"; "id"; "value_type"]) then Ok true
                     else Ok false) = Ok b).
    { destruct (char_in "@"%char a); [eauto|]. case_bool_decide; eauto. }
    destruct Hret as [b Hb]. rewrite Hb. split.
    + split; discriminate.
    + split; [eauto | intros _; now exists a].
  - split; [split; reflexivity|]. split.
    + intros [x Hx]. discriminate.
    + intros [b Hb]. discriminate.
Qed.

Lemma attr_ignore_predicate_raises_iff_witness :
  attr_ignore_predicate false_attribute_fact = Raise TypeError.
Proof.
  destruct (attr_ignore_predicate_raises_iff false_attribute_fact) as [[Hnone _] _].
  now apply Hnone.
Defined.

(** X12: whatever the attributes and however it ends, the data-type
    extractor touches only the data-type name, namespace and kind of the
    fact-construction arguments: every other argument is what it was. *)
Theorem datatype_extractor_frame (fact_dict : fact) (attr_info : gmap string pyval)
    (namespace_mapping : gmap (option string) string)
    (add_fact_kargs : gmap string karg) (k : string) :
  k ∉ datatype_keys ->
  (datatype_extractor fact_dict attr_info namespace_mapping add_fact_kargs).2 !! k
    = add_fact_kargs !! k.
Proof.
  unfold datatype_keys. rewrite !not_elem_of_cons. intros (Hname & Huri & Hkind & _).
  unfold datatype_extractor, default_namespace.
  destruct (bool_decide (is_Some (attr_info !! "idref"))).
  - destruct (truthy (default PNone (attr_info !! "@embedded_type_info")));
      [|reflexivity].
    destruct (namespace_mapping !! None); cbn [snd];
      rewrite ?lookup_insert_ne by congruence; reflexivity.
  - destruct (attr_info !! "value_type"); [|reflexivity].
    destruct (namespace_mapping !! None); cbn [snd];
      rewrite ?lookup_insert_ne by congruence; reflexivity.
Qed.

Lemma datatype_extractor_frame_witness :
  (datatype_extractor condition_fact typed_reference_attrs default_ns_mapping
     some_kargs).2 !! "fact_term_name"
    = Some (KVal (PStr "PEInfo/Sections/Section/Name")).
Proof.
  rewrite (datatype_extractor_frame condition_fact typed_reference_attrs
             default_ns_mapping some_kargs "fact_term_name"); [reflexivity|].
  unfold datatype_keys. rewrite !not_elem_of_cons.
  repeat split; try discriminate. apply not_elem_of_nil.
Defined.

(** X13: a reference comes first: for a fact with [idref] the extractor
    does not look at [value_type]; with or without that attribute, and
    whatever its value, the outcome is the same. *)
Theorem datatype_extractor_reference_first (fact_dict : fact)
    (attr_info : gmap string pyval) (namespace_mapping : gmap (option string) string)
    (add_fact_kargs : gmap string karg) (value_type : pyval) :
  is_Some (attr_info !! "idref") ->
  datatype_extractor fact_dict (<["value_type" := value_type]> attr_info)
    namespace_mapping add_fact_kargs
  = datatype_extractor fact_dict (delete "value_type" attr_info)
      namespace_mapping add_fact_kargs.
Proof.
  intros Hidref. unfold datatype_extractor.
  rewrite !lookup_insert_ne by discriminate.
  rewrite !lookup_delete_ne by discriminate.
  now rewrite (bool_decide_eq_true_2 _ Hidref).
Qed.

Lemma datatype_extractor_reference_first_witness :
  datatype_extractor condition_fact both_attrs default_ns_mapping ∅
    = datatype_extractor condition_fact (delete "value_type" typed_reference_attrs)
        default_ns_mapping ∅.
Proof.
  apply (datatype_extractor_reference_first condition_fact typed_reference_attrs
           default_ns_mapping ∅ (PStr "string")).
  now exists (PStr "b9ef2559").
Defined.

(** X14: with a namespace mapping that has no default namespace the
    extractor fails with a [KeyError] wherever it would write a data type,
    and by then it has written the data-type name: the arguments are left
    half updated.  Where it writes nothing it does not fail. *)
Theorem datatype_extractor_no_default_namespace (fact_dict : fact)
    (attr_info : gmap string pyval) (namespace_mapping : gmap (option string) string)
    (add_fact_kargs : gmap string karg) :
  namespace_mapping !! None = None ->
  (is_Some (attr_info !! "idref") ->
   let marker := default PNone (attr_info !! "@embedded_type_info") in
   datatype_extractor fact_dict attr_info namespace_mapping add_fact_kargs
     = if truthy marker
       then (Raise (KeyError "None"), <["fact_dt_name" := KVal marker]> add_fact_kargs)
       else (Ok true, add_fact_kargs))
  /\ (attr_info !! "idref" = None ->
      datatype_extractor fact_dict attr_info namespace_mapping add_fact_kargs
        = match attr_info !! "value_type" with
          | Some value_type =>
              (Raise (KeyError "None"),
               <["fact_dt_name" := KVal value_type]> add_fact_kargs)
          | None => (Ok false, add_fact_kargs)
          end).
Proof.
  intros Hns. unfold datatype_extractor, default_namespace. rewrite Hns. split.
  - intros Hidref. now rewrite (bool_decide_eq_true_2 _ Hidref).
  - intros Hidref.
    now rewrite bool_decide_eq_false_2
      by (rewrite Hidref; intros [x Hx]; discriminate).
Qed.

Lemma datatype_extractor_no_default_namespace_witness :
  datatype_extractor condition_fact leaf_attrs ∅ ∅
    = (Raise (KeyError "None"), <["fact_dt_name" := KVal (PStr "string")]> ∅).
Proof.
  destruct (datatype_extractor_no_default_namespace condition_fact leaf_attrs ∅ ∅
              (lookup_empty None)) as [_ Hvalue].
  now apply Hvalue.
Defined.

(** X15: the extractor reports that it found no type information exactly
    for the facts that have neither [idref] nor [value_type]. *)
Theorem datatype_extractor_false_iff (fact_dict : fact) (attr_info : gmap string pyval)
    (namespace_mapping : gmap (option string) string)
    (add_fact_kargs : gmap string karg) :
  (datatype_extractor fact_dict attr_info namespace_mapping add_fact_kargs).1 = Ok false
  <-> attr_info !! "idref" = None /\ attr_info !! "value_type" = None.
Proof.
  unfold datatype_extractor, default_namespace.
  destruct (attr_info !! "idref") as [uid|] eqn:Hidref.
  - rewrite bool_decide_eq_true_2 by eauto.
    split; [|intros [Hno _]; discriminate].
    destruct (truthy (default PNone (attr_info !! "@embedded_type_info")));
      [destruct (namespace_mapping !! None)|]; discriminate.
  - rewrite bool_decide_eq_false_2 by (intros [x Hx]; discriminate).
    destruct (attr_info !! "value_type") as [value_type|].
    + split; [|intros [_ Hno]; discriminate].
      destruct (namespace_mapping !! None); discriminate.
    + split; [auto | reflexivity].
Qed.

Lemma datatype_extractor_false_iff_witness :
  (datatype_extractor condition_fact ∅ default_ns_mapping some_kargs).1 = Ok false.
Proof.
  apply (datatype_extractor_false_iff condition_fact ∅ default_ns_mapping some_kargs).
  split; reflexivity.
Defined.

(** X16: without [idref], and with [idref] but without [@timestamp], the
    reference handler fails with a [KeyError] for the key that is missing,
    [idref] first, and leaves the store and the fact-construction arguments
    as they were. *)
Theorem reference_handler_missing_key (self : OpenIOC_Import) (store : list iobject)
    (fact_dict : fact) (attr_info : gmap string pyval)
    (add_fact_kargs : gmap string karg) :
  (attr_info !! "idref" = None ->
   reference_handler self store fact_dict attr_info add_fact_kargs
     = (Raise (KeyError "idref"), store, add_fact_kargs))
  /\ (is_Some (attr_info !! "idref") ->
      attr_info !! "@timestamp" = None ->
      reference_handler self store fact_dict attr_info add_fact_kargs
        = (Raise (KeyError "@timestamp"), store, add_fact_kargs)).
Proof.
  unfold reference_handler, attr_getitem. split.
  - intros Hidref. now rewrite Hidref.
  - intros [uid Hidref] Hts. now rewrite Hidref, Hts.
Qed.

Lemma reference_handler_missing_key_witness :
  reference_handler blank_instance [] condition_fact leaf_attrs some_kargs
    = (Raise (KeyError "idref"), [], some_kargs)
  /\ reference_handler blank_instance [] condition_fact
       (delete "@timestamp" reference_attrs) some_kargs
     = (Raise (KeyError "@timestamp"), [], some_kargs).
Proof.
  destruct (reference_handler_missing_key blank_instance [] condition_fact leaf_attrs
              some_kargs) as [Hidref _].
  destruct (reference_handler_missing_key blank_instance [] condition_fact
              (delete "@timestamp" reference_attrs) some_kargs) as [_ Hts].
  split; [now apply Hidref | apply Hts; [now exists (PStr "b9ef2559") | reflexivity]].
Defined.

(** X17: the predicate of the fact handler list guards the reference
    handler against its first failure: the predicate holds for a fact
    exactly when the handler, run on it, does not fail for want of
    [idref]. *)
Theorem fact_handler_predicate_guards (self : OpenIOC_Import) (store : list iobject)
    (fact_dict : fact) (attr_info : gmap string pyval)
    (add_fact_kargs : gmap string karg) :
  fact_handler_predicate fact_dict attr_info = true
  <-> (reference_handler self store fact_dict attr_info add_fact_kargs).1.1
        <> Raise (KeyError "idref").
Proof.
  unfold fact_handler_predicate, reference_handler, attr_getitem.
  destruct (attr_info !! "idref") as [uid|].
  - rewrite bool_decide_eq_true_2 by eauto. split; [intros _|reflexivity].
    destruct (attr_info !! "@timestamp") as [timestamp|]; [|discriminate].
    destruct (create_placeholder store uid (identifier_ns_uri self) timestamp)
      as [store' existed].
    unfold Identifier_get.
    destruct (existsb (same_identifier uid (identifier_ns_uri self)) store');
      discriminate.
  - rewrite bool_decide_eq_false_2 by (intros [x Hx]; discriminate).
    split; [discriminate | intros Hne; now destruct Hne].
Qed.

Lemma fact_handler_predicate_guards_witness :
  (reference_handler blank_instance [] condition_fact reference_attrs ∅).1.1
    <> Raise (KeyError "idref").
Proof.
  apply (fact_handler_predicate_guards blank_instance [] condition_fact
           reference_attrs ∅).
  reflexivity.
Defined.

End FactHookEdges.

(** ** The import, further *)

Module ImportEdges.
Import Hooks Notions Samples.

Lemma push_embedded_fold_app (embedded : list import_elt) (top : import_elt) :
  fold_left push_embedded embedded (elt_info top, [top])
    = (List.last (map elt_info embedded) (elt_info top), top :: embedded).
Proof. exact (ImportProps.push_embedded_fold embedded (elt_info top) [top]). Qed.

(** The calls of the final loop follow the pending elements, one for one,
    up to the element at which the loop fails, if it does. *)
Lemma create_all_elements (H : host) (self : OpenIOC_Import) (markings : list string)
    (identifier_ns_uri_arg : option string) (ts : datetime)
    (pending_stack : list import_elt) :
  let run := create_all H self markings identifier_ns_uri_arg ts pending_stack in
  Forall (fun c => arg_markings c = markings) run.1
  /\ exists rest,
       map element_of pending_stack = (map call_element run.1 ++ rest)%list
       /\ (run.2 = Ok tt -> rest = []).
Proof.
  induction pending_stack as [|e pending IH]; cbn [create_all].
  - split; [constructor|]. exists []. split; reflexivity.
  - destruct (ns_key (dict_repr e)) as [key|x].
    + destruct (create_all H self markings identifier_ns_uri_arg ts pending)
        as [calls outcome]. cbn [fst snd] in *.
      destruct IH as (Hmark & rest & Hrest & Hdone). split.
      * constructor; [reflexivity | exact Hmark].
      * exists rest. cbn [map app]. rewrite Hrest. split; [reflexivity | exact Hdone].
    + cbn [fst snd]. split; [constructor|].
      exists (map element_of (e :: pending)). split; [reflexivity | discriminate].
Qed.

(** [xml_import] after a successful import: the final loop over the
    top-level element and the embedded ones, with the chosen timestamp. *)
Lemma xml_import_run (H : host) (self : OpenIOC_Import) (now : datetime)
    (filepath xml_content : option string) (markings : option (list string))
    (identifier_ns_uri_arg : option string) (imported : import_result) :
  MantisImporter_xml_import H filepath xml_content
    {[ None := DINGOS_NAMESPACE_URI H ]} = Ok imported ->
  exists self',
    xml_import H self now filepath xml_content markings identifier_ns_uri_arg
    = (self',
       (create_all H self' (default [] markings) identifier_ns_uri_arg
          (chosen_timestamp now imported)
          (toplevel imported :: embedded_objects imported)).1,
       (create_all H self' (default [] markings) identifier_ns_uri_arg
          (chosen_timestamp now imported)
          (toplevel imported :: embedded_objects imported)).2).
Proof.
  intros Himp. unfold xml_import.
  set (self1 := match identifier_ns_uri_arg with
                | Some uri => if str_truthy identifier_ns_uri_arg then _ else init H now
                | None => init H now
                end).
  assert (Hns : namespace_dict self1 = {[ None := DINGOS_NAMESPACE_URI H ]}).
  { subst self1. destruct identifier_ns_uri_arg as [uri|]; [|reflexivity].
    now destruct (str_truthy (Some uri)). }
  assert (Hct : create_timestamp self1 = now).
  { subst self1. destruct identifier_ns_uri_arg as [uri|]; [|reflexivity].
    now destruct (str_truthy (Some uri)). }
  clearbody self1. rewrite Hns, Himp.
  destruct (ns_key (dict_repr (toplevel imported))) as [key|e] eqn:Hkey.
  - set (self2 := match search_by_re_list H _ with
                  | Some (family, revision) => _
                  | None => self1
                  end).
    assert (Hct2 : create_timestamp self2 = now).
    { subst self2. destruct (search_by_re_list H _) as [[family revision]|]; auto. }
    clearbody self2. rewrite push_embedded_fold_app, Hct2. exists self2.
    match goal with |- context [create_all H self2 ?m ?i ?ts ?p] =>
      change (chosen_timestamp now imported) with ts;
      now destruct (create_all H self2 m i ts p)
    end.
  - exists self1. cbn [create_all]. now rewrite Hkey.
Qed.

(** X18: with an identifier namespace that is not empty, the records are
    created under the namespace under which the reference handler resolves
    references: every creation call gets the namespace given, and the
    instance holds it. *)
Theorem xml_import_namespace_given (H : host) (self : OpenIOC_Import)
    (now : datetime) (filepath xml_content : option string)
    (markings : option (list string)) (uri : string) :
  uri <> EmptyString ->
  let run := xml_import H self now filepath xml_content markings (Some uri) in
  identifier_ns_uri run.1.1 = uri
  /\ Forall (fun c => arg_identifier_ns_uri c = Some (identifier_ns_uri run.1.1)) run.1.2.
Proof.
  intros Huri run.
  destruct (ImportProps.xml_import_calls H self now filepath xml_content markings
              (Some uri)) as (Hid & Hcalls & _).
  fold run in Hid, Hcalls. cbn [str_truthy default] in Hid.
  assert (E : String.eqb uri EmptyString = false) by now apply String.eqb_neq.
  rewrite E in Hid. cbn [negb] in Hid. split; [exact Hid|].
  eapply List.Forall_impl; [|exact Hcalls]. intros c [_ Hc]. now rewrite Hc, Hid.
Qed.

Lemma xml_import_namespace_given_witness :
  let run := xml_import (sample_host import_with_item) blank_instance evening_utc
               None None None (Some "mandiant.com") in
  identifier_ns_uri run.1.1 = "mandiant.com"
  /\ Forall (fun c => arg_identifier_ns_uri c = Some (identifier_ns_uri run.1.1)) run.1.2.
Proof.
  apply (xml_import_namespace_given (sample_host import_with_item) blank_instance
           evening_utc None None None "mandiant.com").
  discriminate.
Defined.

(** X19: the empty string for the identifier namespace counts as none for
    the instance, which keeps the default namespace of dingos, and yet goes
    to every creation call as it is. *)
Theorem xml_import_namespace_empty (H : host) (self : OpenIOC_Import)
    (now : datetime) (filepath xml_content : option string)
    (markings : option (list string)) :
  let run := xml_import H self now filepath xml_content markings (Some EmptyString) in
  identifier_ns_uri run.1.1 = DINGOS_DEFAULT_ID_NAMESPACE_URI H
  /\ Forall (fun c => arg_identifier_ns_uri c = Some EmptyString) run.1.2.
Proof.
  intros run.
  destruct (ImportProps.xml_import_calls H self now filepath xml_content markings
              (Some EmptyString)) as (Hid & Hcalls & _).
  fold run in Hid, Hcalls. split; [exact Hid|].
  eapply List.Forall_impl; [|exact Hcalls]. now intros c [_ Hc].
Qed.

Lemma xml_import_failed_run (H : host) (self : OpenIOC_Import)
    (now : datetime) (filepath xml_content : option string)
    (markings : option (list string)) (identifier_ns_uri_arg : option string)
    (e : exn) :
  MantisImporter_xml_import H filepath xml_content
    {[ None := DINGOS_NAMESPACE_URI H ]} = Raise e ->
  let run := xml_import H self now filepath xml_content markings identifier_ns_uri_arg in
  run.1.2 = [] /\ run.2 = Raise e.
Proof.
  intros Himp. unfold xml_import.
  set (self1 := match identifier_ns_uri_arg with
                | Some uri => if str_truthy identifier_ns_uri_arg then _ else init H now
                | None => init H now
                end).
  assert (Hns : namespace_dict self1 = {[ None := DINGOS_NAMESPACE_URI H ]}).
  { subst self1. destruct identifier_ns_uri_arg as [uri|]; [|reflexivity].
    now destruct (str_truthy (Some uri)). }
  clearbody self1. rewrite Hns, Himp. split; reflexivity.
Qed.

(** X20: a failure of the generic import is the failure of [xml_import]:
    the error is handed on and no record is created. *)
Theorem xml_import_failed_import (H : host) (self : OpenIOC_Import)
    (now : datetime) (filepath xml_content : option string)
    (markings : option (list string)) (identifier_ns_uri_arg : option string)
    (e : exn) :
  MantisImporter_xml_import H filepath xml_content
    {[ None := DINGOS_NAMESPACE_URI H ]} = Raise e ->
  let run := xml_import H self now filepath xml_content markings identifier_ns_uri_arg in
  run.1.2 = [] /\ run.2 = Raise e.
Proof.
  intros Himp. now apply xml_import_failed_run.
Qed.

Lemma xml_import_failed_import_witness :
  let run := xml_import failing_host blank_instance evening_utc None None None None in
  run.1.2 = [] /\ run.2 = Raise ValueError.
Proof.
  apply (xml_import_failed_import failing_host blank_instance evening_utc
           None None None None ValueError).
  reflexivity.
Defined.

(** X21: the records are created in the order of the import, the top-level
    element first and then the embedded elements as the import lists them,
    each with the name, the id and the dictionary of its element; a call
    that does not run to its end has created the records of a first part of
    that list. *)
Theorem xml_import_records_in_order (H : host) (self : OpenIOC_Import)
    (now : datetime) (filepath xml_content : option string)
    (markings : option (list string)) (identifier_ns_uri_arg : option string)
    (imported : import_result) :
  MantisImporter_xml_import H filepath xml_content
    {[ None := DINGOS_NAMESPACE_URI H ]} = Ok imported ->
  let run := xml_import H self now filepath xml_content markings identifier_ns_uri_arg in
  exists rest,
    map element_of (toplevel imported :: embedded_objects imported)
      = (map call_element run.1.2 ++ rest)%list
    /\ (run.2 = Ok tt -> rest = []).
Proof.
  intros Himp run.
  destruct (xml_import_run H self now filepath xml_content markings
              identifier_ns_uri_arg imported Himp) as [self' Hrun].
  subst run. rewrite Hrun. cbn [fst snd].
  now destruct (create_all_elements H self' (default [] markings) identifier_ns_uri_arg
                  (chosen_timestamp now imported)
                  (toplevel imported :: embedded_objects imported)) as [_ Hrest].
Qed.

Lemma xml_import_records_in_order_witness :
  let run := xml_import (sample_host import_with_items) blank_instance evening_utc
               None None None None in
  exists rest,
    map element_of [ioc_elt; timed_item_elt; file_item_elt]
      = (map call_element run.1.2 ++ rest)%list
    /\ (run.2 = Ok tt -> rest = []).
Proof.
  apply (xml_import_records_in_order (sample_host import_with_items) blank_instance
           evening_utc None None None None import_with_items).
  reflexivity.
Defined.

(** X22: the timestamp of the records is read from the element that was
    put on the stack last: it is the timestamp of the last embedded element,
    or of the top-level element when nothing is embedded, and the time of
    the call when that element has none; so that with embedded elements the
    timestamp of the top-level element is not used. *)
Theorem xml_import_timestamp_of_last (H : host) (self : OpenIOC_Import)
    (now : datetime) (filepath xml_content : option string)
    (markings : option (list string)) (identifier_ns_uri_arg : option string)
    (imported : import_result) :
  MantisImporter_xml_import H filepath xml_content
    {[ None := DINGOS_NAMESPACE_URI H ]} = Ok imported ->
  let run := xml_import H self now filepath xml_content markings identifier_ns_uri_arg in
  Forall (fun c =>
            arg_timestamp c
            = default now
                (info_timestamp
                   (List.last (map elt_info (embedded_objects imported))
                              (elt_info (toplevel imported))))) run.1.2.
Proof.
  intros Himp run.
  destruct (ImportProps.xml_import_calls H self now filepath xml_content markings
              identifier_ns_uri_arg) as (_ & _ & Hts).
  now destruct (Hts imported Himp) as [Hshared _].
Qed.

Lemma xml_import_timestamp_of_last_witness :
  let run := xml_import (sample_host import_with_items) blank_instance evening_utc
               None None None None in
  info_timestamp (elt_info (toplevel import_with_items)) = Some noon_utc
  /\ Forall (fun c => arg_timestamp c = evening_utc) run.1.2.
Proof.
  split; [reflexivity|].
  apply (xml_import_timestamp_of_last (sample_host import_with_items) blank_instance
           evening_utc None None None None import_with_items).
  reflexivity.
Defined.

(** X23: every record gets the markings of the call, and no markings and
    an empty list of markings are the same to [xml_import]. *)
Theorem xml_import_markings (H : host) (self : OpenIOC_Import)
    (now : datetime) (filepath xml_content : option string)
    (markings : option (list string)) (identifier_ns_uri_arg : option string) :
  let run := xml_import H self now filepath xml_content markings identifier_ns_uri_arg in
  Forall (fun c => arg_markings c = default [] markings) run.1.2
  /\ xml_import H self now filepath xml_content (Some []) identifier_ns_uri_arg
     = xml_import H self now filepath xml_content None identifier_ns_uri_arg.
Proof.
  intros run. split; [|reflexivity].
  destruct (MantisImporter_xml_import H filepath xml_content
              {[ None := DINGOS_NAMESPACE_URI H ]}) as [imported|e] eqn:Himp.
  - destruct (xml_import_run H self now filepath xml_content markings
                identifier_ns_uri_arg imported Himp) as [self' Hrun].
    subst run. rewrite Hrun. cbn [fst snd].
    now destruct (create_all_elements H self' (default [] markings)
                    identifier_ns_uri_arg (chosen_timestamp now imported)
                    (toplevel imported :: embedded_objects imported)) as [Hmark _].
  - destruct (xml_import_failed_run H self now filepath xml_content markings
                identifier_ns_uri_arg e Himp) as [Hcalls _].
    subst run. rewrite Hcalls. constructor.
Qed.

End ImportEdges.
